(** * st2mqtt: the speed-test sampler and the MQTT reporting server

    A shallow embedding of [fast.ts] and [server.ts].

    - A JavaScript [number] is an IEEE 754 binary64 value: Rocq's primitive
      [float], with the comparisons and the subtraction of the hardware.
    - [T | null] is [option T]; [null] is [None].
    - A promise is [Pending], [Fulfilled] or [Rejected]; what an external
      collaborator (the browser page, the MQTT broker) answers is an input of
      the model.
    - Everything the code does to the outside (observer notifications, console
      lines, MQTT publishes, closing the browser) is recorded, in program
      order, in a trace of [effect]s. *)

From Stdlib Require Import List String Ascii Bool ZArith Lia Floats.
Import ListNotations.

Local Open Scope string_scope.
Local Open Scope list_scope.

(** ** JavaScript values *)

Definition number := float.

(** [new Error(message)] *)
Inductive Error : Type :=
| MkError (message : string).

(** The state of a promise when it is awaited. *)
Inductive promise (A : Type) : Type :=
| Pending
| Fulfilled (a : A)
| Rejected (e : Error).

Arguments Pending {A}.
Arguments Fulfilled {A} a.
Arguments Rejected {A} e.

(** [Object.is] on numbers: NaN is the same value as NaN, +0 and -0 differ. *)
Definition Object_is (x y : number) : bool := PrimFloat.Leibniz.eqb x y.

(** [v !== null] *)
Definition not_null {A : Type} (v : option A) : bool :=
  match v with
  | Some _ => true
  | None => false
  end.

(** Equality on [T | null], given the equality of [T]. *)
Definition nullable_eqb {A : Type} (eqb : A -> A -> bool) (x y : option A) : bool :=
  match x, y with
  | Some a, Some b => eqb a b
  | None, None => true
  | _, _ => false
  end.

(** ** fast.ts *)

Module Fast.

Record FastOptions : Type := {
  measureUpload : option bool   (* [measureUpload?: boolean] *)
}.

Record FastResult : Type := {
  downloadSpeed : option number;
  uploadSpeed : option number;
  downloadUnit : option string;
  downloaded : option number;
  uploadUnit : option string;
  uploaded : option number;
  latency : option number;
  bufferBloat : option number;
  userLocation : option string;
  userIp : option string;
  isDone : bool
}.

(** What the sampler does to its collaborators, in program order. *)
Inductive effect : Type :=
| Launch                             (* puppeteer.launch(...) *)
| NewPage                            (* browser.newPage() *)
| Goto (url : string)                (* page.goto(url) *)
| Evaluate                           (* page.evaluate(...) *)
| Delay (ms : Z)                     (* delay(ms) *)
| BrowserClose                       (* browser.close() *)
| ObserverNext (value : FastResult)  (* observer.next(value) *)
| ObserverComplete                   (* observer.complete() *)
| ObserverError (e : Error).         (* observer.error(e) *)

(** [isDeepStrictEqual(result, previousResult)], for a [FastResult] against a
    [FastResult | null]: an object is never equal to [null]; two results are
    compared key by key, the primitive values with [Object.is]. *)
Definition FastResult_eqb (a b : FastResult) : bool :=
  nullable_eqb Object_is (downloadSpeed a) (downloadSpeed b)
  && nullable_eqb Object_is (uploadSpeed a) (uploadSpeed b)
  && nullable_eqb String.eqb (downloadUnit a) (downloadUnit b)
  && nullable_eqb Object_is (downloaded a) (downloaded b)
  && nullable_eqb String.eqb (uploadUnit a) (uploadUnit b)
  && nullable_eqb Object_is (uploaded a) (uploaded b)
  && nullable_eqb Object_is (latency a) (latency b)
  && nullable_eqb Object_is (bufferBloat a) (bufferBloat b)
  && nullable_eqb String.eqb (userLocation a) (userLocation b)
  && nullable_eqb String.eqb (userIp a) (userIp b)
  && Bool.eqb (isDone a) (isDone b).

Definition isDeepStrictEqual (result : FastResult) (previousResult : option FastResult) : bool :=
  match previousResult with
  | None => false
  | Some previous => FastResult_eqb result previous
  end.

(** The first [if] of the loop body of [init]:
    [result.downloadSpeed !== null && result.downloadSpeed > 0 &&
     !isDeepStrictEqual(result, previousResult)]. *)
Definition emit_test (result : FastResult) (previousResult : option FastResult) : bool :=
  match downloadSpeed result with
  | None => false
  | Some speed => (0 <? speed)%float && negb (isDeepStrictEqual result previousResult)
  end.

(** The second [if] of the loop body:
    [result.isDone ||
     (options.measureUpload !== true && result.uploadSpeed !== null)]. *)
Definition measureUpload_is_true (options : FastOptions) : bool :=
  match measureUpload options with
  | Some true => true
  | _ => false
  end.

Definition stop_test (options : FastOptions) (result : FastResult) : bool :=
  isDone result || (negb (measureUpload_is_true options) && not_null (uploadSpeed result)).

(** How one pass through the body of [while (true)] ends. *)
Inductive control : Type :=
| Continue (previousResult : option FastResult)   (* falls to the next pass *)
| Return.                                         (* [return;] *)

(** One pass of the loop of [init], after [page.evaluate] has answered
    [result]. *)
Definition init_iteration (options : FastOptions) (previousResult : option FastResult)
    (result : FastResult) : list effect * control :=
  let emitted := if emit_test result previousResult then [ObserverNext result] else [] in
  if stop_test options result
  then (emitted ++ [BrowserClose; ObserverComplete], Return)
  else (emitted ++ [Delay 100], Continue (Some result)).

(** How a call of [init] stands once the page has given all the answers of
    the model's input. *)
Inductive completion : Type :=
| Returned                                        (* the promise of [init] is fulfilled *)
| Threw (e : Error)                               (* it is rejected *)
| Awaiting (previousResult : option FastResult).  (* the loop awaits [page.evaluate] *)

(** [init(browser, page, observer, options)], started with [previousResult];
    [page] lists what the successive [page.evaluate] calls answer.  The
    effects are grouped by pass of the loop. *)
Fixpoint init_from (options : FastOptions) (previousResult : option FastResult)
    (page : list (promise FastResult)) : list (list effect) * completion :=
  match page with
  | [] => ([], Awaiting previousResult)
  | Pending :: _ => ([[Evaluate]], Awaiting previousResult)
  | Rejected e :: _ => ([[Evaluate]], Threw e)
  | Fulfilled result :: rest =>
      let (effects, next) := init_iteration options previousResult result in
      match next with
      | Return => ([Evaluate :: effects], Returned)
      | Continue previous =>
          let (passes, c) := init_from options previous rest in
          ((Evaluate :: effects) :: passes, c)
      end
  end.

(** [let previousResult: FastResult | null = null; while (true) ...] *)
Definition init (options : FastOptions) (page : list (promise FastResult))
    : list (list effect) * completion :=
  init_from options None page.

(** What the environment and the browser collaborator answer during one
    session. *)
Record session : Type := {
  PUPPETEER_EXECUTABLE_PATH : option string;  (* import.meta.env.PUPPETEER_EXECUTABLE_PATH *)
  installed : promise string;              (* installBrowser(), its executablePath *)
  launched : promise unit;                 (* puppeteer.launch(...) *)
  paged : promise unit;                    (* browser.newPage() *)
  navigated : promise unit;                (* page.goto("https://fast.com") *)
  evaluated : list (promise FastResult)    (* the successive page.evaluate(...) *)
}.

(** [getChromeExecutablePath()]: the path of the environment, or the path of
    the browser that [installBrowser()] installs.  Only the outcome of the
    installation is taken here; the console line that its progress callback
    writes is not among the effects of a session. *)
Definition getChromeExecutablePath (s : session) : promise string :=
  match PUPPETEER_EXECUTABLE_PATH s with
  | None => installed s
  | Some envPath => Fulfilled envPath
  end.

(** The last link of the promise chain: [.catch(observer.error.bind(observer))]. *)
Definition catch_observer_error {A : Type} (p : promise A) : list effect :=
  match p with
  | Rejected e => [ObserverError e]
  | _ => []
  end.

(** The subscriber function of the observable that [runFastTest] returns:
    launch, new page, navigation, [init], and the final [.catch]. *)
Definition subscriber (options : FastOptions) (s : session) : list effect :=
  match launched s with
  | Fulfilled _ =>
      match paged s with
      | Fulfilled _ =>
          match navigated s with
          | Fulfilled _ =>
              let (passes, c) := init options (evaluated s) in
              [Launch; NewPage; Goto "https://fast.com"] ++ List.concat passes
              ++ match c with
                 | Threw e => [ObserverError e]
                 | _ => []
                 end
          | p => [Launch; NewPage; Goto "https://fast.com"] ++ catch_observer_error p
          end
      | p => [Launch; NewPage] ++ catch_observer_error p
      end
  | p => [Launch] ++ catch_observer_error p
  end.

(** [runFastTest(options)]: a promise of the observable; the observable is
    given by what its subscriber function does for one subscription. *)
Definition runFastTest (options : FastOptions) (s : session) : promise (list effect) :=
  match getChromeExecutablePath s with
  | Fulfilled _ => Fulfilled (subscriber options s)
  | Pending => Pending
  | Rejected e => Rejected e
  end.

(** *** Reading a trace *)

(** The readings passed to [observer.next], in order. *)
Fixpoint emitted (t : list effect) : list FastResult :=
  match t with
  | [] => []
  | ObserverNext value :: t' => value :: emitted t'
  | _ :: t' => emitted t'
  end.

Definition is_close (e : effect) : bool :=
  match e with BrowserClose => true | _ => false end.

Definition is_complete (e : effect) : bool :=
  match e with ObserverComplete => true | _ => false end.

Definition is_error (e : effect) : bool :=
  match e with ObserverError _ => true | _ => false end.

(** How many times the trace closes the browser, completes the sequence. *)
Definition closes (t : list effect) : nat := List.length (filter is_close t).
Definition completes (t : list effect) : nat := List.length (filter is_complete t).
Definition errors (t : list effect) : nat := List.length (filter is_error t).

(** The reading that [previousResult] holds when the loop samples tick [n]
    of [ticks]: none at the first tick, then the reading of the tick before. *)
Definition baseline (previousResult : option FastResult) (ticks : list FastResult) (n : nat)
    : option FastResult :=
  match n with
  | O => previousResult
  | S m => nth_error ticks m
  end.

(** A reading with every field [null] but the ones given. *)
Definition reading (speed : option number) (upload : option number) (done : bool) : FastResult :=
  {| downloadSpeed := speed; uploadSpeed := upload; downloadUnit := None;
     downloaded := None; uploadUnit := None; uploaded := None; latency := None;
     bufferBloat := None; userLocation := None; userIp := None; isDone := done |}.

(** The termination condition in the words of the specification: the
    reading is done, or upload measurement was not requested and the upload
    speed is present. *)
Definition terminal (options : FastOptions) (result : FastResult) : Prop :=
  isDone result = true
  \/ (measureUpload options <> Some true /\ uploadSpeed result <> None).

(** The four ticks of the first scenario: a zero download speed, a reading,
    the same reading again, and a last reading that is done. *)
Definition scenario_1 : list FastResult :=
  [ reading (Some 0%float) None false;
    reading (Some 50%float) None false;
    reading (Some 50%float) None false;
    reading (Some 55%float) None true ].

(** The ticks of the second scenario: the upload speed shows up before the
    page is done. *)
Definition scenario_2 : list FastResult :=
  [ reading (Some 40%float) None false;
    reading (Some 40%float) (Some 12%float) false;
    reading (Some 40%float) (Some 13%float) true ].

(** A session that runs the first scenario to its end, a session whose
    navigation fails, and one whose second sampling fails. *)
Definition normal_completion : session :=
  {| PUPPETEER_EXECUTABLE_PATH := Some "/usr/bin/chromium-browser"; installed := Pending;
     launched := Fulfilled tt; paged := Fulfilled tt; navigated := Fulfilled tt;
     evaluated := map Fulfilled scenario_1 |}.

Definition navigation_failure : session :=
  {| PUPPETEER_EXECUTABLE_PATH := Some "/usr/bin/chromium-browser"; installed := Pending;
     launched := Fulfilled tt; paged := Fulfilled tt;
     navigated := Rejected (MkError "net::ERR_NAME_NOT_RESOLVED");
     evaluated := [] |}.

Definition extraction_failure : session :=
  {| PUPPETEER_EXECUTABLE_PATH := Some "/usr/bin/chromium-browser"; installed := Pending;
     launched := Fulfilled tt; paged := Fulfilled tt; navigated := Fulfilled tt;
     evaluated := [ Fulfilled (reading (Some 50%float) None false);
                    Rejected (MkError "Execution context was destroyed") ] |}.

End Fast.


(** ** JavaScript built-ins used by server.ts *)

Local Open Scope string_scope.
Set Warnings "-register-all".

(** [Math.max(x, y)]: NaN when either argument is NaN; +0 is larger than -0. *)
Definition Math_max (x y : number) : number :=
  if is_nan x || is_nan y then nan
  else if (x <? y)%float then y
  else if (y <? x)%float then x
  else if is_zero x && get_sign x then y
  else x.

(** JSON values, as far as [JSON.stringify] is applied to them here. *)
Inductive JSON : Type :=
| JNull
| JNumber (n : number)
| JString (s : string)
| JArray (items : list JSON)
| JObject (members : list (string * JSON)).

Definition hex_digit (n : N) : ascii :=
  match n with
  | 0%N => "0" | 1%N => "1" | 2%N => "2" | 3%N => "3"
  | 4%N => "4" | 5%N => "5" | 6%N => "6" | 7%N => "7"
  | 8%N => "8" | 9%N => "9" | 10%N => "a" | 11%N => "b"
  | 12%N => "c" | 13%N => "d" | 14%N => "e" | _ => "f"
  end%char.

Definition double_quote : ascii := ascii_of_nat 34.
Definition backslash : ascii := ascii_of_nat 92.

(** One code unit of a string under [QuoteJSONString]. *)
Definition quote_code_unit (c : ascii) : string :=
  let n := N_of_ascii c in
  if (n =? 8)%N then String backslash "b"
  else if (n =? 9)%N then String backslash "t"
  else if (n =? 10)%N then String backslash "n"
  else if (n =? 12)%N then String backslash "f"
  else if (n =? 13)%N then String backslash "r"
  else if (n =? 34)%N then String backslash (String double_quote EmptyString)
  else if (n =? 92)%N then String backslash (String backslash EmptyString)
  else if (n <? 32)%N
       then String backslash
              ("u00" ++ String (hex_digit (n / 16)) (String (hex_digit (n mod 16)) EmptyString))
  else String c EmptyString.

Fixpoint quote_code_units (s : string) : string :=
  match s with
  | EmptyString => EmptyString
  | String c s' => quote_code_unit c ++ quote_code_units s'
  end.

(** [QuoteJSONString(s)] *)
Definition QuoteJSONString (s : string) : string :=
  String double_quote (quote_code_units s ++ String double_quote EmptyString).

(** ** server.ts *)

Module Server.

Inductive SensorType : Type :=
| download_speed
| upload_speed
| latency_sensor      (* "latency" *)
| buffer_bloat.

(** The string that a [SensorType] is. *)
Definition SensorType_string (sensorType : SensorType) : string :=
  match sensorType with
  | download_speed => "download_speed"
  | upload_speed => "upload_speed"
  | latency_sensor => "latency"
  | buffer_bloat => "buffer_bloat"
  end.

Definition SENSOR_TYPE_TO_NAME (sensorType : SensorType) : string :=
  match sensorType with
  | download_speed => "Download Speed"
  | upload_speed => "Upload Speed"
  | latency_sensor => "Latency"
  | buffer_bloat => "Buffer Bloat"
  end.

Definition deviceClassForSensorType (sensorType : SensorType) : option string :=
  match sensorType with
  | download_speed | upload_speed => Some "data_rate"
  | latency_sensor | buffer_bloat => None
  end.

Definition unitForSensorType (sensorType : SensorType) : string :=
  match sensorType with
  | download_speed | upload_speed => "Mbps"
  | latency_sensor | buffer_bloat => "ms"
  end.

Definition iconForSensorType (sensorType : SensorType) : string :=
  match sensorType with
  | download_speed => "mdi:download"
  | upload_speed => "mdi:upload"
  | latency_sensor => "mdi:timer"
  | buffer_bloat => "mdi:timer-sand"
  end.

Definition getDeviceIdentifier (identifier : string) : string :=
  "st_" ++ identifier.

Definition getStateTopic (identifier : string) : string :=
  let deviceIdentifier := getDeviceIdentifier identifier in
  "homeassistant/sensor/" ++ deviceIdentifier ++ "/state".

Record SpeedTestResult : Type := {
  downloadSpeed : number;
  uploadSpeed : number;
  latency : number;
  bufferBloat : number
}.

(** What the server does to the outside, in program order. *)
Inductive effect : Type :=
| Browser (e : Fast.effect)              (* what the sampler does *)
| ConsoleLog (line : string)             (* console.log(line) *)
| ConsoleWarn (line : string)            (* console.warn(line) *)
| Publish (topic payload : string)       (* client.publishAsync(topic, payload) *)
| CronStop                               (* cronJob.stop() *)
| MqttEnd                                (* mqttClient.end() *)
| ProcessExit (code : Z).                (* process.exit(code) *)

(** An [async] function: the effects it has, and how its promise stands. *)
Definition async (A : Type) : Type := (list effect * promise A)%type.

Definition resolve {A : Type} (a : A) : async A := ([], Fulfilled a).

(** [const x = await m; k x]: a rejection of [m] is thrown at the [await],
    and the rest of the function does not run. *)
Definition await {A B : Type} (m : async A) (k : A -> async B) : async B :=
  match m with
  | (t, Fulfilled a) => let (u, r) := k a in ((t ++ u)%list, r)
  | (t, Pending) => (t, Pending)
  | (t, Rejected e) => (t, Rejected e)
  end.

Notation "x <- m ;; k" := (await m (fun x => k))
  (at level 61, m at next level, right associativity).
Notation "m ;; k" := (await m (fun _ => k))
  (at level 61, right associativity).

Definition console_log (line : string) : async unit := ([ConsoleLog line], Fulfilled tt).
Definition console_warn (line : string) : async unit := ([ConsoleWarn line], Fulfilled tt).

(** The first promise of the list that is not fulfilled decides against the
    whole: a rejection before a pending one.  [Promise.all] rejects with the
    rejection that comes first in time; the answers are taken here to come in
    the order of the calls. *)
Fixpoint all_settled (ps : list (promise unit)) : promise unit :=
  match ps with
  | [] => Fulfilled tt
  | Fulfilled _ :: ps' => all_settled ps'
  | Rejected e :: _ => Rejected e
  | Pending :: ps' =>
      match all_settled ps' with
      | Rejected e => Rejected e
      | _ => Pending
      end
  end.

(** [Promise.all([m1, ..., mn])] of calls that are all started before the
    first [await]: every call has its effects, in the order of the array. *)
Definition Promise_all (ms : list (async unit)) : async unit :=
  (List.concat (map fst ms), all_settled (map snd ms)).

Section Runtime.

(** [Number::toString]: the decimal text of a number in a template literal;
    the runtime's, not modelled. *)
Variable Number_toString : number -> string.

(** What the MQTT client answers to [publishAsync(topic, payload)]. *)
Variable broker : string -> string -> promise unit.

(** [JSON.stringify(value)]: members in the order of the object literal;
    a number that is not finite is written [null]. *)
Fixpoint JSON_stringify (value : JSON) : string :=
  match value with
  | JNull => "null"
  | JNumber n => if is_finite n then Number_toString n else "null"
  | JString s => QuoteJSONString s
  | JArray items =>
      "[" ++ (fix elements (l : list JSON) : string :=
                match l with
                | [] => EmptyString
                | x :: l' =>
                    JSON_stringify x
                    ++ match l' with [] => EmptyString | _ => "," ++ elements l' end
                end) items ++ "]"
  | JObject members =>
      "{" ++ (fix properties (l : list (string * JSON)) : string :=
                match l with
                | [] => EmptyString
                | (key, x) :: l' =>
                    QuoteJSONString key ++ ":" ++ JSON_stringify x
                    ++ match l' with [] => EmptyString | _ => "," ++ properties l' end
                end) members ++ "}"
  end.

Definition nullable_string (s : option string) : JSON :=
  match s with
  | Some s' => JString s'
  | None => JNull
  end.

Definition publishAsync (topic payload : string) : async unit :=
  ([Publish topic payload], broker topic payload).

Definition publishSpeedTestResult (identifier : string) (result : SpeedTestResult) : async unit :=
  if (downloadSpeed result <? 5)%float
  then console_warn "[st2mqtt] Download speed is less than 5 Mbps, skipping publishing"
  else
    console_log ("[st2mqtt] Publishing speed test result to topic: " ++ getStateTopic identifier) ;;
    publishAsync (getStateTopic identifier)
      (JSON_stringify
         (JObject [ ("download_speed", JNumber (downloadSpeed result));
                    ("upload_speed", JNumber (uploadSpeed result));
                    ("latency", JNumber (latency result));
                    ("buffer_bloat", JNumber (bufferBloat result)) ])).

(** The [complete] callback of [runSpeedTest], with the value of [result]. *)
Definition complete (result : option Fast.FastResult) : promise SpeedTestResult :=
  match result with
  | Some r =>
      match Fast.downloadSpeed r, Fast.uploadSpeed r, Fast.latency r, Fast.bufferBloat r with
      | Some speed, Some upload, Some lat, Some bloat =>
          Fulfilled {| downloadSpeed := speed;
                       uploadSpeed := upload;
                       latency := lat;
                       bufferBloat := Math_max (bloat - lat)%float 0%float |}
      | _, _, _, _ => Rejected (MkError "No result")
      end
  | None => Rejected (MkError "No result")
  end.

(** The subscription of [runSpeedTest] to the observable: [next] overwrites
    [result], [complete] and [error] settle the promise; the observable
    notifies nothing after either. *)
Fixpoint subscribe (result : option Fast.FastResult) (events : list Fast.effect)
    : promise SpeedTestResult :=
  match events with
  | [] => Pending
  | Fast.ObserverNext value :: events' => subscribe (Some value) events'
  | Fast.ObserverComplete :: _ => complete result
  | Fast.ObserverError error :: _ => Rejected error
  | _ :: events' => subscribe result events'
  end.

(** [runSpeedTest()]: when [runFastTest] does not give the observable, the
    executor has thrown after its [await] and neither [resolve] nor [reject]
    is ever called. *)
Definition runSpeedTest (s : Fast.session) : async SpeedTestResult :=
  match Fast.runFastTest {| Fast.measureUpload := Some true |} s with
  | Fulfilled events => (map Browser events, subscribe None events)
  | _ => ([], Pending)
  end.

Definition runAndReport (identifier : string) (s : Fast.session) : async unit :=
  console_log "[st2mqtt] Starting speed test" ;;
  testResult <- runSpeedTest s ;;
  console_log "[st2mqtt] Speed test complete!" ;;
  console_log ("[st2mqtt]       Download: " ++ Number_toString (downloadSpeed testResult) ++ " Mbps") ;;
  console_log ("[st2mqtt]         Upload: " ++ Number_toString (uploadSpeed testResult) ++ " Mbps") ;;
  console_log ("[st2mqtt]        Latency: " ++ Number_toString (latency testResult)) ;;
  console_log ("[st2mqtt]   Buffer Bloat: " ++ Number_toString (bufferBloat testResult)) ;;
  publishSpeedTestResult identifier testResult.

(** The topic and the payload object of [publishDiscoverMessage]. *)
Definition discovery_topic (identifier : string) (sensorType : SensorType) : string :=
  let deviceIdentifier := getDeviceIdentifier identifier in
  "homeassistant/sensor/" ++ deviceIdentifier ++ "/" ++ SensorType_string sensorType ++ "/config".

Definition discovery_payload (identifier : string) (sensorType : SensorType) : JSON :=
  let deviceIdentifier := getDeviceIdentifier identifier in
  JObject
    [ ("name", JString (SENSOR_TYPE_TO_NAME sensorType));
      ("state_topic", JString (getStateTopic identifier));
      ("device_class", nullable_string (deviceClassForSensorType sensorType));
      ("unique_id", JString (deviceIdentifier ++ "_" ++ SensorType_string sensorType));
      ("value_template", JString ("{{ value_json." ++ SensorType_string sensorType ++ " }}"));
      ("icon", JString (iconForSensorType sensorType));
      ("unit_of_measurement", JString (unitForSensorType sensorType));
      ("device",
       JObject [ ("name", JString "Speedtest Sensor");
                 ("identifiers", JArray [JString deviceIdentifier]);
                 ("manufacturer", JString "Vincent Riemer");
                 ("model", JString "Speedtest Docker Container") ]) ].

Definition publishDiscoverMessage (identifier : string) (sensorType : SensorType) : async unit :=
  let topic := discovery_topic identifier sensorType in
  let payload := discovery_payload identifier sensorType in
  console_log ("[st2mqtt] Publishing discovery message to " ++ topic) ;;
  publishAsync topic (JSON_stringify payload).

Definition publishDiscoveryMessages (identifier : string) : async unit :=
  Promise_all
    [ publishDiscoverMessage identifier download_speed;
      publishDiscoverMessage identifier upload_speed;
      publishDiscoverMessage identifier latency_sensor;
      publishDiscoverMessage identifier buffer_bloat ].

(** The handler that [createMessageHandler(client, identifier)] returns.  The
    block of [case "homeassistant/status"] has no [break]: control goes on
    into the block of [default]. *)
Definition createMessageHandler (identifier : string) (topic : string) (message : string)
    : async unit :=
  (if String.eqb topic "homeassistant/status"
   then
     console_log ("[st2mqtt] Received " ++ String double_quote "homeassistant/status"
                  ++ String double_quote " message") ;;
     publishDiscoveryMessages identifier
   else resolve tt) ;;
  console_warn ("Received message on unknown topic: " ++ topic).

End Runtime.

(** *** The process and its listeners *)

Inductive signal : Type := SIGHUP | SIGINT | SIGTERM.

(** The events of [process] that the server listens to or that its exit
    involves. *)
Inductive process_event : Type :=
| beforeExit
| exit
| on_signal (s : signal).

Definition process_event_eqb (a b : process_event) : bool :=
  match a, b with
  | beforeExit, beforeExit => true
  | exit, exit => true
  | on_signal SIGHUP, on_signal SIGHUP => true
  | on_signal SIGINT, on_signal SIGINT => true
  | on_signal SIGTERM, on_signal SIGTERM => true
  | _, _ => false
  end.

(** The listeners of [process], in the order of their registration; a
    listener is the list of the calls of its body. *)
Definition process : Type := list (process_event * list effect).

(** [process.on(event, listener)] *)
Definition process_on (event : process_event) (listener : list effect) (p : process) : process :=
  (p ++ [(event, listener)])%list.

(** [registerExitHandlers(cronJob, mqttClient)] *)
Definition registerExitHandlers (p : process) : list effect * process :=
  ([ConsoleLog "[st2mqtt] Registering exit handlers"],
   process_on (on_signal SIGTERM) [ProcessExit (128 + 15)]
     (process_on (on_signal SIGINT) [ProcessExit (128 + 2)]
        (process_on (on_signal SIGHUP) [ProcessExit (128 + 1)]
           (process_on beforeExit [ConsoleLog "[st2mqtt] Cleaning up"; CronStop; MqttEnd] p)))).

(** How the process stands. *)
Inductive status : Type :=
| Running
| Exited (code : Z)
| Killed (s : signal).

(** The calls of the listeners of [event], in the order of registration. *)
Definition listeners (p : process) (event : process_event) : list effect :=
  List.concat (map snd (filter (fun l => process_event_eqb (fst l) event) p)).

(** The calls up to the first [process.exit], and its code if there is one. *)
Fixpoint until_exit (calls : list effect) : list effect * option Z :=
  match calls with
  | [] => ([], None)
  | ProcessExit code :: _ => ([ProcessExit code], Some code)
  | call :: calls' => let (t, c) := until_exit calls' in (call :: t, c)
  end.

(** [process.exit(code)] in the runtime: the listeners of ['exit'] run and the
    process ends; the listeners of ['beforeExit'] are not called on an
    explicit exit. *)
Definition process_exit (p : process) (code : Z) : list effect * status :=
  (fst (until_exit (listeners p exit)), Exited code).

(** The runtime delivers a signal: without a listener the signal ends the
    process; otherwise the listeners run, and a [process.exit] among their
    calls ends the process. *)
Definition deliver (p : process) (s : signal) : list effect * status :=
  match filter (fun l => process_event_eqb (fst l) (on_signal s)) p with
  | [] => ([], Killed s)
  | _ =>
      match until_exit (listeners p (on_signal s)) with
      | (t, Some code) => let (u, st) := process_exit p code in ((t ++ u)%list, st)
      | (t, None) => (t, Running)
      end
  end.

(** Signals that arrive one after the other; none is handled once the
    process has ended. *)
Fixpoint deliver_all (p : process) (signals : list signal) : list effect * status :=
  match signals with
  | [] => ([], Running)
  | s :: signals' =>
      match deliver p s with
      | (t, Running) => let (u, st) := deliver_all p signals' in ((t ++ u)%list, st)
      | (t, st) => (t, st)
      end
  end.

(** The event loop has nothing left to do: the listeners of ['beforeExit']
    run; when they schedule no work the process exits with code 0. *)
Definition drain (p : process) : list effect * status :=
  match until_exit (listeners p beforeExit) with
  | (t, Some code) => let (u, st) := process_exit p code in ((t ++ u)%list, st)
  | (t, None) => let (u, st) := process_exit p 0 in ((t ++ u)%list, st)
  end.

(** The number of the signal. *)
Definition signal_number (s : signal) : Z :=
  match s with
  | SIGHUP => 1
  | SIGINT => 2
  | SIGTERM => 15
  end.

Definition is_publish (e : effect) : bool :=
  match e with Publish _ _ => true | _ => false end.

(** The messages handed to [publishAsync], in order. *)
Fixpoint published (t : list effect) : list (string * string) :=
  match t with
  | [] => []
  | Publish topic payload :: t' => (topic, payload) :: published t'
  | _ :: t' => published t'
  end.

Definition is_cleanup (e : effect) : bool :=
  match e with CronStop | MqttEnd => true | _ => false end.

(** *** The words of the specification *)

(** The reading seen last, given the one seen before [readings]. *)
Definition latest (before : option Fast.FastResult) (readings : list Fast.FastResult)
    : option Fast.FastResult :=
  fold_left (fun _ r => Some r) readings before.

(** The reading has the four fields of a measurement. *)
Definition usable (r : Fast.FastResult) : Prop :=
  Fast.downloadSpeed r <> None /\ Fast.uploadSpeed r <> None
  /\ Fast.latency r <> None /\ Fast.bufferBloat r <> None.

(** No [complete] and no [error] among the notifications. *)
Definition open_stream (events : list Fast.effect) : bool :=
  forallb (fun e => negb (Fast.is_complete e || Fast.is_error e)) events.

(** A reading with the four measured fields and nothing else, done. *)
Definition final_reading (speed upload lat bloat : option number) : Fast.FastResult :=
  {| Fast.downloadSpeed := speed; Fast.uploadSpeed := upload; Fast.downloadUnit := None;
     Fast.downloaded := None; Fast.uploadUnit := None; Fast.uploaded := None;
     Fast.latency := lat; Fast.bufferBloat := bloat; Fast.userLocation := None;
     Fast.userIp := None; Fast.isDone := true |}.

(** The message that [publishSpeedTestResult] hands to the client. *)
Definition state_message (Number_toString : number -> string) (identifier : string)
    (result : SpeedTestResult) : string * string :=
  (getStateTopic identifier,
   JSON_stringify Number_toString
     (JObject [ ("download_speed", JNumber (downloadSpeed result));
                ("upload_speed", JNumber (uploadSpeed result));
                ("latency", JNumber (latency result));
                ("buffer_bloat", JNumber (bufferBloat result)) ])).

(** A runtime for the examples: every number prints as [N], the broker
    acknowledges every publish. *)
Definition print_N (n : number) : string := "N".
Definition acknowledge (topic payload : string) : promise unit := Fulfilled tt.
Definition disconnected (topic payload : string) : promise unit :=
  Rejected (MkError "client disconnecting").

(** The download speed of the reading is present and above 0. *)
Definition positive_speed (r : Fast.FastResult) : Prop :=
  exists speed, Fast.downloadSpeed r = Some speed /\ (0 <? speed)%float = true.

(** The four sensors, in the order of [publishDiscoveryMessages]. *)
Definition sensors : list SensorType :=
  [download_speed; upload_speed; latency_sensor; buffer_bloat].

(** The message that [publishDiscoverMessage] hands to the client. *)
Definition discovery_message (Number_toString : number -> string) (identifier : string)
    (sensorType : SensorType) : string * string :=
  (discovery_topic identifier sensorType,
   JSON_stringify Number_toString (discovery_payload identifier sensorType)).

(** The line that the [default] block of the message handler writes. *)
Definition unknown_topic_warning (topic : string) : effect :=
  ConsoleWarn ("Received message on unknown topic: " ++ topic).

End Server.

(** ** fast.ts: installing the browser *)

Module Installer.

(** The [downloadProgressCallback] of [installBrowser], with the value of
    [downloaded] it closes over: the console lines it writes, and the new
    value of [downloaded]. *)
Definition downloadProgressCallback (chromeVersion : string) (downloaded : bool)
    : list string * bool :=
  if negb downloaded
  then (["Downloading the browser Chrome/" ++ chromeVersion ++ "..."], true)
  else ([], downloaded).

(** [browsers.install] reports progress [calls] times. *)
Fixpoint progress (chromeVersion : string) (downloaded : bool) (calls : nat)
    : list string * bool :=
  match calls with
  | O => ([], downloaded)
  | S calls' =>
      let (lines, downloaded') := downloadProgressCallback chromeVersion downloaded in
      let (lines', downloaded'') := progress chromeVersion downloaded' calls' in
      ((lines ++ lines')%list, downloaded'')
  end.

(** [installBrowser()]: [let downloaded = false], then [browsers.install],
    which calls back [calls] times and settles as [installation]. *)
Definition installBrowser (chromeVersion : string) (calls : nat)
    (installation : promise string) : list string * promise string :=
  (fst (progress chromeVersion false calls), installation).

End Installer.

(** ** fast.ts: sessions used in the statements *)

Module Sessions.

(** A session in which the browser is found, launched and navigated, and the
    page answers [ticks], one after the other. *)
Definition healthy (ticks : list Fast.FastResult) : Fast.session :=
  {| Fast.PUPPETEER_EXECUTABLE_PATH := Some "/usr/bin/chromium-browser";
     Fast.installed := Pending;
     Fast.launched := Fulfilled tt;
     Fast.paged := Fulfilled tt;
     Fast.navigated := Fulfilled tt;
     Fast.evaluated := map Fulfilled ticks |}.

(** The reading [r], while the page is not done yet. *)
Definition unfinished (r : Fast.FastResult) : Fast.FastResult :=
  {| Fast.downloadSpeed := Fast.downloadSpeed r; Fast.uploadSpeed := Fast.uploadSpeed r;
     Fast.downloadUnit := Fast.downloadUnit r; Fast.downloaded := Fast.downloaded r;
     Fast.uploadUnit := Fast.uploadUnit r; Fast.uploaded := Fast.uploaded r;
     Fast.latency := Fast.latency r; Fast.bufferBloat := Fast.bufferBloat r;
     Fast.userLocation := Fast.userLocation r; Fast.userIp := Fast.userIp r;
     Fast.isDone := false |}.

(** The page shows every state twice. *)
Fixpoint stutter {A : Type} (l : list A) : list A :=
  match l with
  | [] => []
  | x :: l' => x :: x :: stutter l'
  end.

(** The effect is a notification that ends the stream. *)
Definition is_terminal (e : Fast.effect) : bool :=
  Fast.is_complete e || Fast.is_error e.

(** The effect neither closes the browser nor ends the stream. *)
Definition quiet (e : Fast.effect) : bool :=
  negb (Fast.is_close e || is_terminal e).

(** How a subscription can end: still running, closed and completed, or
    failed. *)
Definition ending (tail : list Fast.effect) : Prop :=
  tail = []
  \/ tail = [Fast.BrowserClose; Fast.ObserverComplete]
  \/ exists e, tail = [Fast.ObserverError e].

Definition is_evaluate (e : Fast.effect) : bool :=
  match e with Fast.Evaluate => true | _ => false end.

Definition is_delay (e : Fast.effect) : bool :=
  match e with Fast.Delay _ => true | _ => false end.

End Sessions.

(** ** server.ts: the payloads as objects *)

Module Payloads.
Import Server.

(** The object literal that [publishSpeedTestResult] stringifies. *)
Definition state_payload (result : SpeedTestResult) : JSON :=
  JObject [ ("download_speed", JNumber (downloadSpeed result));
            ("upload_speed", JNumber (uploadSpeed result));
            ("latency", JNumber (latency result));
            ("buffer_bloat", JNumber (bufferBloat result)) ].

(** [object[key]], for an own property of an object literal. *)
Fixpoint member (key : string) (members : list (string * JSON)) : option JSON :=
  match members with
  | [] => None
  | (k, v) :: members' => if String.eqb k key then Some v else member key members'
  end.

Definition property (key : string) (value : JSON) : option JSON :=
  match value with
  | JObject members => member key members
  | _ => None
  end.

(** The measured value that belongs to a sensor. *)
Definition measured (sensorType : SensorType) (result : SpeedTestResult) : number :=
  match sensorType with
  | download_speed => downloadSpeed result
  | upload_speed => uploadSpeed result
  | latency_sensor => latency result
  | buffer_bloat => bufferBloat result
  end.

(** The characters of a string, last first. *)
Definition reversed (s : string) : list ascii := rev (list_ascii_of_string s).

End Payloads.

(** ** server.ts: [startServer] and the command line *)

Module Orchestrator.
Import Server.

Record ServerOptions : Type := {
  mqttUsername : option string;
  mqttPassword : option string;
  cronSchedule : option string
}.

(** What [startServer] does to the outside, in program order. *)
Inductive step : Type :=
| Connect (url : string) (username password : option string)
                                   (* mqtt.connectAsync(url, {username, password}) *)
| OnMessage                        (* mqttClient.on("message", handler) *)
| Subscribe (topic : string)       (* mqttClient.subscribeAsync(topic) *)
| Schedule (pattern : string)      (* Cron(pattern, callback) *)
| Did (e : effect).                (* an effect of the functions called *)

(** What the MQTT client and the scheduler answer to [startServer]. *)
Record collaborators : Type := {
  connected : promise unit;        (* mqtt.connectAsync(...) *)
  subscribed : promise unit;       (* mqttClient.subscribeAsync(...) *)
  scheduled : option Error         (* what Cron(...) throws, if it throws *)
}.

Definition task (A : Type) : Type := (list step * promise A)%type.

Definition lift {A : Type} (m : async A) : task A := (map Did (fst m), snd m).

(** [await] in [startServer]. *)
Definition and_then {A B : Type} (m : task A) (k : A -> task B) : task B :=
  match m with
  | (t, Fulfilled a) => let (u, r) := k a in ((t ++ u)%list, r)
  | (t, Pending) => (t, Pending)
  | (t, Rejected e) => (t, Rejected e)
  end.

(** A call that throws is a rejection of the [async] function around it. *)
Definition thrown (e : option Error) : promise unit :=
  match e with
  | None => Fulfilled tt
  | Some error => Rejected error
  end.

(** [startServer(url, identifier, options)], in a process with the listeners
    [p]; a fulfilled promise carries the listeners of the process at the
    return. *)
Definition startServer (Number_toString : number -> string)
    (broker : string -> string -> promise unit) (c : collaborators) (s : Fast.session)
    (p : process) (url identifier : string) (options : ServerOptions) : task process :=
  let username := mqttUsername options in
  let password := mqttPassword options in
  let schedule :=
    match cronSchedule options with
    | Some pattern => pattern
    | None => "0 * * * *"
    end in
  and_then ([Connect url username password], connected c) (fun _ =>
  and_then ([OnMessage], Fulfilled tt) (fun _ =>
  and_then (lift (publishDiscoveryMessages Number_toString broker identifier)) (fun _ =>
  and_then (lift (runAndReport Number_toString broker identifier s)) (fun _ =>
  and_then ([Subscribe "homeassistant/status"], subscribed c) (fun _ =>
  and_then (lift (console_log ("[st2mqtt] Setting up cron job with schedule: " ++ schedule)))
    (fun _ =>
  and_then ([Schedule schedule], thrown (scheduled c)) (fun _ =>
  let (lines, p') := registerExitHandlers p in
  and_then (map Did lines, Fulfilled tt) (fun _ =>
  and_then (lift (console_log "[st2mqtt] Server started!")) (fun _ =>
  ([], Fulfilled p')))))))))).

(** The [values] that [parseArgs] returns. *)
Record cli_values : Type := {
  mqtt_url : option string;
  unique_id : option string;
  mqtt_username : option string;
  mqtt_password : option string
}.

(** The truth value of a [string | undefined]. *)
Definition truthy (v : option string) : bool :=
  match v with
  | Some (String _ _) => true
  | _ => false
  end.

(** [invariant(condition, message)]: what it throws, if it throws. *)
Definition invariant (condition : bool) (message : string) : option Error :=
  if condition then None else Some (MkError message).

(** The body of [if (import.meta.path === Bun.main)], after [parseArgs]. *)
Definition main (Number_toString : number -> string)
    (broker : string -> string -> promise unit) (c : collaborators) (s : Fast.session)
    (p : process) (values : cli_values) : task process :=
  match invariant (truthy (mqtt_url values)) "Missing required option: --mqtt_url" with
  | Some e => ([], Rejected e)
  | None =>
      match invariant (truthy (unique_id values)) "Missing required option: --unique_id" with
      | Some e => ([], Rejected e)
      | None =>
          match mqtt_url values, unique_id values with
          | Some url, Some identifier =>
              startServer Number_toString broker c s p url identifier
                {| mqttUsername := mqtt_username values;
                   mqttPassword := mqtt_password values;
                   cronSchedule := None |}
          | _, _ => ([], Pending)
          end
      end
  end.

(** The promise is fulfilled. *)
Definition fulfilled {A : Type} (p : promise A) : bool :=
  match p with
  | Fulfilled _ => true
  | _ => false
  end.

(** The schedule that [startServer] uses. *)
Definition schedule_of (options : ServerOptions) : string :=
  match cronSchedule options with
  | Some pattern => pattern
  | None => "0 * * * *"
  end.

Definition is_subscribe (e : step) : bool :=
  match e with Subscribe _ => true | _ => false end.

Definition is_schedule (e : step) : bool :=
  match e with Schedule _ => true | _ => false end.

Definition is_publication (e : step) : bool :=
  match e with Did (Publish _ _) => true | _ => false end.

(** Collaborators that always answer. *)
Definition reliable : collaborators :=
  {| connected := Fulfilled tt; subscribed := Fulfilled tt; scheduled := None |}.

End Orchestrator.

(** ** What [page.evaluate] delivers *)

Module Delivery.

(** The object that the function given to [page.evaluate] returns crosses
    from the page to the server by value, as JSON: a number that is not finite
    arrives as [null].  So a number of a reading is finite. *)
Definition finite_or_null (v : option number) : bool :=
  match v with
  | Some n => is_finite n
  | None => true
  end.

Definition delivered (r : Fast.FastResult) : bool :=
  finite_or_null (Fast.downloadSpeed r)
  && finite_or_null (Fast.uploadSpeed r)
  && finite_or_null (Fast.downloaded r)
  && finite_or_null (Fast.uploaded r)
  && finite_or_null (Fast.latency r)
  && finite_or_null (Fast.bufferBloat r).

(** An answer of [page.evaluate] is a delivered reading, a rejection, or
    none. *)
Definition delivered_answer (answer : promise Fast.FastResult) : bool :=
  match answer with
  | Fulfilled r => delivered r
  | _ => true
  end.

(** The stream that [runSpeedTest] subscribes to, and the reading it has
    seen last when the stream ends. *)
Definition stream (s : Fast.session) : list Fast.effect :=
  Fast.subscriber {| Fast.measureUpload := Some true |} s.

Definition last_seen (s : Fast.session) : option Fast.FastResult :=
  Server.latest None (Fast.emitted (stream s)).

(** The binary64 value is a zero or a finite number. *)
Definition SF_is_finite (x : spec_float) : bool :=
  match x with
  | S754_zero _ | S754_finite _ _ _ => true
  | _ => false
  end.

End Delivery.

(** ** Comparisons of binary64 numbers *)

Module NumberFacts.

Lemma SFcompare_antisym (x y : spec_float) :
  SFcompare y x = option_map CompOpp (SFcompare x y).
Proof.
  destruct x as [s|s| |s m e], y as [s'|s'| |s' m' e']; simpl;
    try (destruct s, s'; reflexivity); try (destruct s; reflexivity);
    try (destruct s'; reflexivity); try reflexivity.
  destruct s, s'; simpl; try reflexivity;
    rewrite (Z.compare_antisym e e'); destruct (e ?= e')%Z; simpl; try reflexivity;
    rewrite (Pos.compare_cont_antisym m m' Eq); reflexivity.
Qed.

Lemma SFcompare_refl (x : spec_float) :
  x <> S754_nan -> SFcompare x x = Some Eq.
Proof.
  destruct x as [s|s| |s m e]; simpl; intros H.
  - reflexivity.
  - destruct s; reflexivity.
  - congruence.
  - destruct s; rewrite Z.compare_refl, Pos.compare_cont_refl; reflexivity.
Qed.

Lemma SFcompare_nan (x y : spec_float) :
  SFcompare x y = None <-> x = S754_nan \/ y = S754_nan.
Proof.
  destruct x as [s|s| |s m e], y as [s'|s'| |s' m' e']; simpl;
    split; intros H; try discriminate; try (destruct H; discriminate);
    try reflexivity; auto.
Qed.

(** A number is NaN exactly when it is unordered with itself. *)
Lemma is_nan_false (x : number) : is_nan x = false <-> Prim2SF x <> S754_nan.
Proof.
  unfold is_nan. rewrite negb_false_iff, FloatAxioms.eqb_spec. unfold SFeqb. split.
  - intros H Hnan. rewrite Hnan in H. discriminate.
  - intros H. rewrite (SFcompare_refl _ H). reflexivity.
Qed.

(** On numbers that are not NaN, [x < y] is the negation of [y <= x]. *)
Lemma ltb_negb_leb (x y : number) :
  is_nan x = false -> is_nan y = false -> (x <? y)%float = negb (y <=? x)%float.
Proof.
  rewrite !is_nan_false, FloatAxioms.ltb_spec, FloatAxioms.leb_spec.
  intros Hx Hy. unfold SFltb, SFleb. rewrite (SFcompare_antisym (Prim2SF x) (Prim2SF y)).
  destruct (SFcompare (Prim2SF x) (Prim2SF y)) as [[| |]|] eqn:Hc; try reflexivity.
  apply SFcompare_nan in Hc. tauto.
Qed.

(** A number that compares below or above another one is not NaN. *)
Lemma ltb_true_not_nan (x y : number) :
  (x <? y)%float = true -> is_nan x = false /\ is_nan y = false.
Proof.
  rewrite !is_nan_false, FloatAxioms.ltb_spec. unfold SFltb.
  destruct (SFcompare (Prim2SF x) (Prim2SF y)) as [c|] eqn:Hc; [|discriminate].
  intros _. split; intros Hnan;
    assert (Hn : SFcompare (Prim2SF x) (Prim2SF y) = None)
      by (apply SFcompare_nan; auto); congruence.
Qed.

Lemma leb_true_not_nan (x y : number) :
  (x <=? y)%float = true -> is_nan x = false /\ is_nan y = false.
Proof.
  rewrite !is_nan_false, FloatAxioms.leb_spec. unfold SFleb.
  destruct (SFcompare (Prim2SF x) (Prim2SF y)) as [c|] eqn:Hc; [|discriminate].
  intros _. split; intros Hnan;
    assert (Hn : SFcompare (Prim2SF x) (Prim2SF y) = None)
      by (apply SFcompare_nan; auto); congruence.
Qed.

Lemma ltb_nan_l (y : number) (x : number) : is_nan x = true -> (x <? y)%float = false.
Proof.
  intros Hnan. destruct (x <? y)%float eqn:H; [|reflexivity].
  apply ltb_true_not_nan in H. destruct H as [H _]. congruence.
Qed.

(** [Math.max(x, 0)] is NaN when [x] is, and is at least 0 otherwise. *)
Lemma Math_max_zero_nan (x : number) : is_nan x = true -> Math_max x 0%float = nan.
Proof. unfold Math_max. intros ->. reflexivity. Qed.

Lemma Math_max_zero_nonneg (x : number) :
  is_nan x = false -> (0 <=? Math_max x 0%float)%float = true.
Proof.
  intros Hx. unfold Math_max. rewrite Hx. simpl.
  assert (H0 : is_nan 0%float = false) by reflexivity.
  destruct (x <? 0)%float eqn:Hlt; [reflexivity|].
  assert (Hle : (0 <=? x)%float = true).
  { rewrite (ltb_negb_leb x 0%float Hx H0) in Hlt. apply negb_false_iff in Hlt. exact Hlt. }
  destruct (0 <? x)%float; [exact Hle|].
  destruct (is_zero x && get_sign x); [reflexivity | exact Hle].
Qed.

End NumberFacts.
(** ** The sampler ([init]) *)

Module SamplerFacts.
Import Fast.
Local Open Scope list_scope.

(** *** Structural equality of readings *)

Lemma Object_is_eq (x y : number) : Object_is x y = true <-> x = y.
Proof. apply FloatAxioms.Leibniz.eqb_spec. Qed.

Lemma nullable_eqb_eq {A : Type} (eqb : A -> A -> bool)
    (eqb_eq : forall a b, eqb a b = true <-> a = b) (x y : option A) :
  nullable_eqb eqb x y = true <-> x = y.
Proof.
  destruct x as [a|], y as [b|]; simpl.
  - rewrite eqb_eq. split; congruence.
  - split; discriminate.
  - split; discriminate.
  - split; reflexivity.
Qed.

(** [isDeepStrictEqual] holds of two readings exactly when all their fields
    have the same values. *)
Lemma FastResult_eqb_eq (a b : FastResult) : FastResult_eqb a b = true <-> a = b.
Proof.
  unfold FastResult_eqb.
  repeat rewrite andb_true_iff.
  repeat rewrite (nullable_eqb_eq Object_is Object_is_eq).
  repeat rewrite (nullable_eqb_eq String.eqb String.eqb_eq).
  rewrite Bool.eqb_true_iff.
  destruct a, b; simpl.
  split.
  - intros [[[[[[[[[[? ?] ?] ?] ?] ?] ?] ?] ?] ?] ?]. congruence.
  - intros H. inversion H. repeat split; reflexivity.
Qed.

Lemma isDeepStrictEqual_false (result : FastResult) (previousResult : option FastResult) :
  isDeepStrictEqual result previousResult = false <-> previousResult <> Some result.
Proof.
  destruct previousResult as [previous|]; simpl.
  - rewrite <- not_true_iff_false, FastResult_eqb_eq. split; congruence.
  - split; [discriminate | reflexivity].
Qed.

(** *** One pass of the loop *)

Lemma emitted_app (t u : list effect) : emitted (t ++ u) = emitted t ++ emitted u.
Proof.
  induction t as [|e t IH]; simpl; [reflexivity|].
  destruct e; simpl; rewrite IH; reflexivity.
Qed.

Lemma emitted_init_iteration options previousResult result :
  emitted (fst (init_iteration options previousResult result))
  = if emit_test result previousResult then [result] else [].
Proof.
  unfold init_iteration.
  destruct (stop_test options result); simpl; rewrite emitted_app; simpl;
    destruct (emit_test result previousResult); reflexivity.
Qed.

Lemma init_iteration_control options previousResult result :
  snd (init_iteration options previousResult result)
  = if stop_test options result then Return else Continue (Some result).
Proof. unfold init_iteration. destruct (stop_test options result); reflexivity. Qed.

(** Pass [n] of a run is the loop body on tick [n] against [baseline]. *)
Lemma init_from_pass options :
  forall ticks previousResult n result pass,
    nth_error ticks n = Some result ->
    nth_error (fst (init_from options previousResult (map Fulfilled ticks))) n = Some pass ->
    pass = Evaluate :: fst (init_iteration options (baseline previousResult ticks n) result).
Proof.
  induction ticks as [|r rest IH]; intros previousResult n result pass Htick Hpass.
  - destruct n; discriminate.
  - simpl in Hpass.
    destruct (init_iteration options previousResult r) as [effects next] eqn:Hbody.
    destruct next as [previous|].
    + assert (Hprev : previous = Some r).
      { pose proof (init_iteration_control options previousResult r) as Hc.
        rewrite Hbody in Hc. simpl in Hc.
        destruct (stop_test options r); congruence. }
      subst previous.
      destruct (init_from options (Some r) (map Fulfilled rest)) as [passes c] eqn:Hrest.
      destruct n as [|m]; simpl in *.
      * inversion Htick; subst. inversion Hpass; subst. rewrite Hbody. reflexivity.
      * specialize (IH (Some r) m result pass Htick).
        rewrite Hrest in IH. specialize (IH Hpass).
        rewrite IH. destruct m; reflexivity.
    + destruct n as [|m]; simpl in *.
      * inversion Htick; subst. inversion Hpass; subst. rewrite Hbody. reflexivity.
      * destruct m; discriminate.
Qed.

(** A pass exists for a tick only while no earlier tick made the loop
    return; the pass of a tick that passes the second test is the last one, and
    the call returns there. *)
Lemma init_from_stops options :
  forall ticks previousResult n result pass,
    nth_error ticks n = Some result ->
    nth_error (fst (init_from options previousResult (map Fulfilled ticks))) n = Some pass ->
    stop_test options result = true ->
    List.length (fst (init_from options previousResult (map Fulfilled ticks))) = S n
    /\ snd (init_from options previousResult (map Fulfilled ticks)) = Returned.
Proof.
  induction ticks as [|r rest IH]; intros previousResult n result pass Htick Hpass Hstop.
  - destruct n; discriminate.
  - simpl in *. unfold init_iteration in *.
    destruct (stop_test options r) eqn:Hr.
    + destruct n as [|m]; simpl in *.
      * split; reflexivity.
      * destruct m; discriminate.
    + destruct (init_from options (Some r) (map Fulfilled rest)) as [passes c] eqn:Hrest.
      destruct n as [|m]; simpl in *.
      * congruence.
      * specialize (IH (Some r) m result pass Htick).
        rewrite Hrest in IH. simpl in IH.
        destruct (IH Hpass Hstop) as [Hlen Hc]. split; congruence.
Qed.

(** The call returns exactly when some tick passes the second test. *)
Lemma init_from_returned options :
  forall ticks previousResult,
    snd (init_from options previousResult (map Fulfilled ticks)) = Returned
    <-> existsb (stop_test options) ticks = true.
Proof.
  induction ticks as [|r rest IH]; intros previousResult; simpl.
  - split; discriminate.
  - unfold init_iteration. destruct (stop_test options r) eqn:Hr; simpl.
    + split; reflexivity.
    + specialize (IH (Some r)).
      destruct (init_from options (Some r) (map Fulfilled rest)) as [passes c].
      exact IH.
Qed.

(** The flat trace of a run that returns closes the browser once and
    completes the sequence once, and signals no error. *)
Lemma init_from_counts options :
  forall ticks previousResult,
    let t := List.concat (fst (init_from options previousResult (map Fulfilled ticks))) in
    closes t = (if existsb (stop_test options) ticks then 1 else 0)%nat
    /\ completes t = (if existsb (stop_test options) ticks then 1 else 0)%nat.
Proof.
  induction ticks as [|r rest IH]; intros previousResult; simpl.
  - split; reflexivity.
  - unfold init_iteration. destruct (stop_test options r) eqn:Hr; simpl.
    + destruct (emit_test r previousResult); split; reflexivity.
    + specialize (IH (Some r)).
      destruct (init_from options (Some r) (map Fulfilled rest)) as [passes c].
      simpl in *. unfold closes, completes in *.
      destruct (emit_test r previousResult); simpl;
        rewrite ?filter_app; simpl; exact IH.
Qed.

(** The second test, as a proposition. *)
Lemma stop_test_true options result :
  stop_test options result = true
  <-> isDone result = true
      \/ (measureUpload options <> Some true /\ uploadSpeed result <> None).
Proof.
  unfold stop_test, measureUpload_is_true.
  rewrite orb_true_iff, andb_true_iff, negb_true_iff.
  destruct (measureUpload options) as [[|]|], (uploadSpeed result); simpl;
    intuition congruence.
Qed.

(** The first test, as a proposition. *)
Lemma emit_test_true result previousResult :
  emit_test result previousResult = true
  <-> (exists speed, downloadSpeed result = Some speed /\ (0 <? speed)%float = true)
      /\ previousResult <> Some result.
Proof.
  unfold emit_test. rewrite <- isDeepStrictEqual_false.
  destruct (downloadSpeed result) as [speed|].
  - rewrite andb_true_iff, negb_true_iff. split.
    + intros [H1 H2]. split; [exists speed; split; [reflexivity | exact H1] | exact H2].
    + intros [[s [Hs H1]] H2]. inversion Hs; subst. split; assumption.
  - split; [discriminate | intros [[s [Hs _]] _]; discriminate].
Qed.

Lemma In_complete_iteration options previousResult result :
  In ObserverComplete (Evaluate :: fst (init_iteration options previousResult result))
  <-> stop_test options result = true.
Proof.
  unfold init_iteration.
  destruct (stop_test options result), (emit_test result previousResult); simpl;
    intuition congruence.
Qed.

(** C1. Sampler emit/dedup law: the pass of the loop that samples tick [n]
    hands the reading of that tick to the observer, once, if and only if its
    download speed is present and greater than 0 and the reading differs, in
    some field, from the reading of tick [n - 1], emitted or not; the first
    tick has no reading before it, so it is emitted as soon as its download
    speed qualifies.  On the four ticks of the first scenario the loop emits
    the second and the fourth reading and returns. *)
Theorem sampler_emit_dedup_law options ticks n result pass
    (Htick : nth_error ticks n = Some result)
    (Hpass : nth_error (fst (init options (map Fulfilled ticks))) n = Some pass) :
  (emitted pass = [result] \/ emitted pass = [])
  /\ (emitted pass = [result]
      <-> (exists speed, downloadSpeed result = Some speed /\ (0 <? speed)%float = true)
          /\ baseline None ticks n <> Some result)
  /\ (n = 0%nat ->
      (emitted pass = [result]
       <-> exists speed, downloadSpeed result = Some speed /\ (0 <? speed)%float = true))
  /\ init options (map Fulfilled scenario_1)
     = ([ [Evaluate; Delay 100];
          [Evaluate; ObserverNext (reading (Some 50%float) None false); Delay 100];
          [Evaluate; Delay 100];
          [Evaluate; ObserverNext (reading (Some 55%float) None true);
           BrowserClose; ObserverComplete] ],
        Returned).
Proof.
  pose proof (init_from_pass options ticks None n result pass Htick Hpass) as Hbody.
  assert (Hemitted : emitted pass
                     = if emit_test result (baseline None ticks n) then [result] else []).
  { rewrite Hbody. simpl. apply emitted_init_iteration. }
  assert (Hiff : emitted pass = [result] <-> emit_test result (baseline None ticks n) = true).
  { rewrite Hemitted. destruct (emit_test result (baseline None ticks n));
      split; congruence. }
  split; [|split; [|split]].
  - rewrite Hemitted. destruct (emit_test result (baseline None ticks n)); auto.
  - rewrite Hiff. apply emit_test_true.
  - intros ->. rewrite Hiff, emit_test_true. simpl.
    split; [intros [H _]; exact H | intros H; split; [exact H | discriminate]].
  - destruct options as [[[|]|]]; reflexivity.
Qed.

Lemma sampler_emit_dedup_law_witness :
  emitted [Evaluate; ObserverNext (reading (Some 50%float) None false); Delay 100]
  = [reading (Some 50%float) None false]
  <-> (exists speed,
          downloadSpeed (reading (Some 50%float) None false) = Some speed
          /\ (0 <? speed)%float = true)
      /\ baseline None scenario_1 1 <> Some (reading (Some 50%float) None false).
Proof.
  apply (sampler_emit_dedup_law {| measureUpload := Some true |} scenario_1 1
           (reading (Some 50%float) None false)
           [Evaluate; ObserverNext (reading (Some 50%float) None false); Delay 100]);
    reflexivity.
Defined.

(** C2. Sampler termination law: the pass that samples tick [n] completes
    the sequence if and only if the reading is done, or upload measurement was
    not requested and the upload speed is present; a reading that is done
    always completes it; the completing pass first emits the reading when it
    passes the emit test, then closes the browser and completes, and it is the
    last pass; the call of [init] returns exactly when some tick satisfies the
    condition, and it completes the sequence at most once. *)
Theorem sampler_termination_law options ticks n result pass
    (Htick : nth_error ticks n = Some result)
    (Hpass : nth_error (fst (init options (map Fulfilled ticks))) n = Some pass) :
  (In ObserverComplete pass <-> terminal options result)
  /\ (isDone result = true -> In ObserverComplete pass)
  /\ (In ObserverComplete pass ->
      pass = Evaluate
             :: (if emit_test result (baseline None ticks n) then [ObserverNext result] else [])
             ++ [BrowserClose; ObserverComplete]
      /\ List.length (fst (init options (map Fulfilled ticks))) = S n
      /\ snd (init options (map Fulfilled ticks)) = Returned)
  /\ (snd (init options (map Fulfilled ticks)) = Returned
      <-> exists r, In r ticks /\ terminal options r)
  /\ (completes (List.concat (fst (init options (map Fulfilled ticks)))) <= 1)%nat
  /\ init {| measureUpload := Some false |} (map Fulfilled scenario_2)
     = ([ [Evaluate; ObserverNext (reading (Some 40%float) None false); Delay 100];
          [Evaluate; ObserverNext (reading (Some 40%float) (Some 12%float) false);
           BrowserClose; ObserverComplete] ],
        Returned).
Proof.
  pose proof (init_from_pass options ticks None n result pass Htick Hpass) as Hbody.
  assert (Hin : In ObserverComplete pass <-> stop_test options result = true).
  { rewrite Hbody. apply In_complete_iteration. }
  split; [|split; [|split; [|split; [|split]]]].
  - rewrite Hin. apply stop_test_true.
  - intros Hdone. apply Hin. apply stop_test_true. left. exact Hdone.
  - intros Hc. apply Hin in Hc. split.
    + rewrite Hbody. unfold init_iteration. rewrite Hc. reflexivity.
    + exact (init_from_stops options ticks None n result pass Htick Hpass Hc).
  - unfold init. rewrite init_from_returned, existsb_exists.
    split; intros [r [Hr Hs]]; exists r; (split; [exact Hr | apply stop_test_true; exact Hs]).
  - destruct (init_from_counts options ticks None) as [_ Hc]. unfold init.
    simpl in Hc. rewrite Hc. destruct (existsb (stop_test options) ticks); lia.
  - reflexivity.
Qed.

Lemma sampler_termination_law_witness :
  In ObserverComplete
     [Evaluate; ObserverNext (reading (Some 40%float) (Some 12%float) false);
      BrowserClose; ObserverComplete]
  <-> terminal {| measureUpload := Some false |} (reading (Some 40%float) (Some 12%float) false).
Proof.
  apply (sampler_termination_law {| measureUpload := Some false |} scenario_2 1
           (reading (Some 40%float) (Some 12%float) false)
           [Evaluate; ObserverNext (reading (Some 40%float) (Some 12%float) false);
            BrowserClose; ObserverComplete]);
    reflexivity.
Defined.

End SamplerFacts.

(** ** The session ([runFastTest]) *)

Module SessionFacts.
Import Fast.
Local Open Scope list_scope.

Lemma closes_app (t u : list effect) : closes (t ++ u) = (closes t + closes u)%nat.
Proof. unfold closes. rewrite filter_app, length_app. reflexivity. Qed.

Lemma completes_app (t u : list effect) : completes (t ++ u) = (completes t + completes u)%nat.
Proof. unfold completes. rewrite filter_app, length_app. reflexivity. Qed.

Lemma errors_app (t u : list effect) : errors (t ++ u) = (errors t + errors u)%nat.
Proof. unfold errors. rewrite filter_app, length_app. reflexivity. Qed.

(** One call of [init], whatever the page answers: the browser is closed,
    and the sequence completed, once when the call returns and never
    otherwise; [init] itself signals no error. *)
Lemma init_from_closes options :
  forall page previousResult,
    let run := init_from options previousResult page in
    closes (List.concat (fst run)) = (match snd run with Returned => 1 | _ => 0 end)%nat
    /\ completes (List.concat (fst run)) = (match snd run with Returned => 1 | _ => 0 end)%nat
    /\ errors (List.concat (fst run)) = 0%nat.
Proof.
  induction page as [|p page IH]; intros previousResult; simpl.
  - repeat split; reflexivity.
  - destruct p as [|result|e]; simpl; try (repeat split; reflexivity).
    unfold init_iteration.
    destruct (stop_test options result); simpl.
    + destruct (emit_test result previousResult); repeat split; reflexivity.
    + specialize (IH (Some result)).
      destruct (init_from options (Some result) page) as [passes c]. simpl in *.
      destruct IH as [H1 [H2 H3]].
      destruct (emit_test result previousResult); simpl;
        rewrite ?closes_app, ?completes_app, ?errors_app;
        unfold closes, completes, errors in *; simpl; rewrite H1, H2, H3;
        repeat split; reflexivity.
Qed.

(** One subscription: the browser is closed as many times as the sequence
    completes, at most once, and never when the failure is signalled. *)
Lemma subscriber_closes options s :
  closes (subscriber options s) = completes (subscriber options s)
  /\ (closes (subscriber options s) <= 1)%nat
  /\ (errors (subscriber options s) = 0%nat \/ closes (subscriber options s) = 0%nat).
Proof.
  unfold subscriber.
  destruct (launched s) as [|u|e]; [cbn; auto | | cbn; auto].
  destruct (paged s) as [|u'|e]; [cbn; auto | | cbn; auto].
  destruct (navigated s) as [|u''|e]; [cbn; auto | | cbn; auto].
  pose proof (init_from_closes options (evaluated s) None) as H.
  unfold init.
  destruct (init_from options None (evaluated s)) as [passes c].
  cbn [fst snd] in H. destruct H as [H1 [H2 H3]].
  rewrite !closes_app, !completes_app, !errors_app, H1, H2, H3.
  destruct c; cbn; auto.
Qed.

(** C6, where the code departs from it. Session teardown: the browser is
    closed once when the sampling loop returns (as in the session that runs
    the first scenario), but on the failure path the
    final [.catch] only notifies the observer.  When the navigation fails the
    launched browser is never closed; when a later sampling fails the reading
    emitted before stays emitted, the error is signalled, and the browser is
    never closed either.  In general one subscription closes the browser as
    many times as it completes the sequence, and not at all when it signals an
    error. *)
Theorem session_not_closed_on_failure :
  closes (subscriber {| measureUpload := Some true |} normal_completion) = 1%nat
  /\ subscriber {| measureUpload := Some true |} navigation_failure
  = [Launch; NewPage; Goto "https://fast.com";
     ObserverError (MkError "net::ERR_NAME_NOT_RESOLVED")]
  /\ closes (subscriber {| measureUpload := Some true |} navigation_failure) = 0%nat
  /\ subscriber {| measureUpload := Some true |} extraction_failure
     = [Launch; NewPage; Goto "https://fast.com";
        Evaluate; ObserverNext (reading (Some 50%float) None false); Delay 100;
        Evaluate; ObserverError (MkError "Execution context was destroyed")]
  /\ closes (subscriber {| measureUpload := Some true |} extraction_failure) = 0%nat
  /\ (forall options s,
        closes (subscriber options s) = completes (subscriber options s)
        /\ (closes (subscriber options s) <= 1)%nat
        /\ (errors (subscriber options s) = 0%nat \/ closes (subscriber options s) = 0%nat)).
Proof.
  repeat (split; [reflexivity|]). exact subscriber_closes.
Qed.

End SessionFacts.

(** ** The reducer ([runSpeedTest]) *)

Module ReducerFacts.
Import Server.
Local Open Scope list_scope.

(** Before the stream ends, the subscription only remembers the reading
    emitted last. *)
Lemma subscribe_app (events rest : list Fast.effect) :
  forall result,
    open_stream events = true ->
    subscribe result (events ++ rest) = subscribe (latest result (Fast.emitted events)) rest.
Proof.
  induction events as [|e events IH]; intros result Hopen; simpl.
  - reflexivity.
  - simpl in Hopen. apply andb_true_iff in Hopen. destruct Hopen as [He Hopen].
    destruct e; simpl in *; try discriminate; apply IH; exact Hopen.
Qed.

Lemma complete_fulfilled (result : option Fast.FastResult) :
  (exists value, complete result = Fulfilled value)
  <-> exists r, result = Some r /\ usable r.
Proof.
  unfold complete, usable. split.
  - intros [value H]. destruct result as [r|]; [|discriminate].
    exists r. split; [reflexivity|].
    destruct (Fast.downloadSpeed r), (Fast.uploadSpeed r), (Fast.latency r),
      (Fast.bufferBloat r); try discriminate.
    repeat split; discriminate.
  - intros [r [-> [H1 [H2 [H3 H4]]]]].
    destruct (Fast.downloadSpeed r), (Fast.uploadSpeed r), (Fast.latency r),
      (Fast.bufferBloat r); try congruence.
    eexists. reflexivity.
Qed.

Lemma complete_rejected (result : option Fast.FastResult) :
  (forall value, complete result <> Fulfilled value) ->
  complete result = Rejected (MkError "No result").
Proof.
  unfold complete. intros H. destruct result as [r|]; [|reflexivity].
  destruct (Fast.downloadSpeed r), (Fast.uploadSpeed r), (Fast.latency r),
    (Fast.bufferBloat r); try reflexivity.
  exfalso. eapply H. reflexivity.
Qed.

Lemma published_app (t u : list effect) : published (t ++ u) = published t ++ published u.
Proof.
  induction t as [|e t IH]; simpl; [reflexivity|].
  destruct e; simpl; rewrite ?IH; reflexivity.
Qed.

Lemma published_browser (events : list Fast.effect) : published (map Browser events) = [].
Proof. induction events as [|e events IH]; simpl; [reflexivity | exact IH]. Qed.

Lemma published_runSpeedTest s :
  published (fst (runSpeedTest s)) = [].
Proof.
  unfold runSpeedTest.
  destruct (Fast.runFastTest _ s); simpl;
    [reflexivity | apply published_browser | reflexivity].
Qed.

End ReducerFacts.

(** ** From the sampler to the reducer *)

Module PipelineFacts.
Import Server.
Local Open Scope list_scope.

(** Every reading that the loop of [init] emits passed the first test. *)
Lemma init_from_emits_positive options :
  forall page previousResult,
    Forall positive_speed
      (Fast.emitted (List.concat (fst (Fast.init_from options previousResult page)))).
Proof.
  induction page as [|p page IH]; intros previousResult; simpl.
  - constructor.
  - destruct p as [|result|e]; simpl; try constructor.
    unfold Fast.init_iteration.
    assert (Hhead : forall tail,
               Forall positive_speed (Fast.emitted tail) ->
               Forall positive_speed
                 (Fast.emitted
                    ((if Fast.emit_test result previousResult
                      then [Fast.ObserverNext result] else []) ++ tail))).
    { intros tail Htail. destruct (Fast.emit_test result previousResult) eqn:Hemit; simpl.
      - constructor; [|exact Htail].
        apply SamplerFacts.emit_test_true in Hemit. exact (proj1 Hemit).
      - exact Htail. }
    destruct (Fast.stop_test options result).
    + simpl. rewrite app_nil_r. apply Hhead. simpl. constructor.
    + specialize (IH (Some result)).
      destruct (Fast.init_from options (Some result) page) as [passes c]. simpl in *.
      rewrite <- app_assoc. apply Hhead. simpl. exact IH.
Qed.

Lemma subscriber_emits_positive options s :
  Forall positive_speed (Fast.emitted (Fast.subscriber options s)).
Proof.
  unfold Fast.subscriber.
  destruct (Fast.launched s) as [|u|e]; simpl; try constructor.
  destruct (Fast.paged s) as [|u'|e]; simpl; try constructor.
  destruct (Fast.navigated s) as [|u''|e]; simpl; try constructor.
  pose proof (init_from_emits_positive options (Fast.evaluated s) None) as H.
  unfold Fast.init.
  destruct (Fast.init_from options None (Fast.evaluated s)) as [passes c]. simpl in *.
  rewrite SamplerFacts.emitted_app.
  apply Forall_app. split; [exact H|].
  destruct c; simpl; constructor.
Qed.

(** A result comes from a reading of the stream, or from the one held. *)
Lemma subscribe_fulfilled_speed (events : list Fast.effect) :
  forall result value,
    subscribe result events = Fulfilled value ->
    (forall r, result = Some r -> positive_speed r) ->
    Forall positive_speed (Fast.emitted events) ->
    (0 <? downloadSpeed value)%float = true.
Proof.
  induction events as [|e events IH]; intros result value Hsub Hheld Hall; simpl in *.
  - discriminate.
  - destruct e; simpl in *; try (eapply IH; eassumption).
    + inversion Hall; subst.
      eapply IH; [eassumption | | assumption].
      intros r Hr. inversion Hr; subst. assumption.
    + unfold complete in Hsub. destruct result as [r|]; [|discriminate].
      destruct (Hheld r eq_refl) as [speed [Hspeed Hpos]].
      rewrite Hspeed in Hsub.
      destruct (Fast.uploadSpeed r), (Fast.latency r), (Fast.bufferBloat r);
        try discriminate.
      inversion Hsub; subst. exact Hpos.
    + discriminate.
Qed.

(** The download speed of every result that [runSpeedTest] resolves to is
    above 0; in particular it is a number. *)
Lemma runSpeedTest_speed_positive s value :
  snd (runSpeedTest s) = Fulfilled value ->
  (0 <? downloadSpeed value)%float = true.
Proof.
  unfold runSpeedTest, Fast.runFastTest.
  destruct (Fast.getChromeExecutablePath s) as [|path|e]; simpl; try discriminate.
  intros H. eapply subscribe_fulfilled_speed.
  - exact H.
  - intros r Hr. discriminate.
  - apply subscriber_emits_positive.
Qed.

End PipelineFacts.

(** ** Publishing ([publishSpeedTestResult], discovery, the message handler) *)

Module PublisherFacts.
Import Server.
Local Open Scope list_scope.

(** *** Discovery *)

Lemma string_app_inv_head (p a b : string) : (p ++ a)%string = (p ++ b)%string -> a = b.
Proof.
  induction p as [|c p IH]; simpl; intros H.
  - exact H.
  - inversion H. apply IH. assumption.
Qed.

(** No discovery topic is the state topic. *)
Lemma discovery_topic_not_state (identifier : string) (sensorType : SensorType) :
  discovery_topic identifier sensorType <> getStateTopic identifier.
Proof.
  unfold discovery_topic, getStateTopic. intros H.
  apply string_app_inv_head in H. apply string_app_inv_head in H.
  destruct sensorType; discriminate.
Qed.

(** What one call of [publishDiscoverMessage] does. *)
Lemma publishDiscoverMessage_run Number_toString broker identifier sensorType :
  publishDiscoverMessage Number_toString broker identifier sensorType
  = ([ConsoleLog ("[st2mqtt] Publishing discovery message to "
                  ++ discovery_topic identifier sensorType)%string;
      Publish (discovery_topic identifier sensorType)
        (JSON_stringify Number_toString (discovery_payload identifier sensorType))],
     broker (discovery_topic identifier sensorType)
       (JSON_stringify Number_toString (discovery_payload identifier sensorType))).
Proof. reflexivity. Qed.

(** The discovery payload holds no number: its text does not depend on how
    the runtime prints numbers. *)
Lemma discovery_payload_text Number_toString Number_toString' identifier sensorType :
  JSON_stringify Number_toString (discovery_payload identifier sensorType)
  = JSON_stringify Number_toString' (discovery_payload identifier sensorType).
Proof. destruct sensorType; reflexivity. Qed.

(** The messages of one discovery burst, whatever the broker answers. *)
Lemma published_burst Number_toString broker identifier :
  published (fst (publishDiscoveryMessages Number_toString broker identifier))
  = map (discovery_message Number_toString identifier) sensors.
Proof. reflexivity. Qed.

Lemma burst_has_no_warning Number_toString broker identifier line :
  ~ In (ConsoleWarn line) (fst (publishDiscoveryMessages Number_toString broker identifier)).
Proof.
  unfold publishDiscoveryMessages, Promise_all. simpl.
  intros H. repeat (destruct H as [H|H]; [discriminate|]). exact H.
Qed.

(** What the message handler does on the reset topic. *)
Lemma createMessageHandler_status Number_toString broker identifier message :
  createMessageHandler Number_toString broker identifier "homeassistant/status" message
  = let burst := publishDiscoveryMessages Number_toString broker identifier in
    (ConsoleLog ("[st2mqtt] Received " ++ String double_quote "homeassistant/status"
                 ++ String double_quote " message")%string
     :: fst burst
     ++ match snd burst with
        | Fulfilled _ => [unknown_topic_warning "homeassistant/status"]
        | _ => []
        end,
     snd burst).
Proof.
  unfold createMessageHandler. simpl String.eqb. cbv iota.
  unfold await at 1.
  destruct (console_log _ ;; publishDiscoveryMessages Number_toString broker identifier)
    as [t p] eqn:Hrun.
  unfold await, console_log in Hrun.
  destruct (publishDiscoveryMessages Number_toString broker identifier) as [u q] eqn:Hburst.
  inversion Hrun; subst t p. cbv zeta. simpl fst. simpl snd.
  destruct q as [|[]|e]; simpl; rewrite ?app_nil_r; reflexivity.
Qed.

(** What the message handler does on any other topic. *)
Lemma createMessageHandler_other Number_toString broker identifier topic message :
  topic <> "homeassistant/status" ->
  createMessageHandler Number_toString broker identifier topic message
  = ([unknown_topic_warning topic], Fulfilled tt).
Proof.
  intros H. unfold createMessageHandler.
  apply String.eqb_neq in H. rewrite H. reflexivity.
Qed.

Lemma published_status Number_toString broker identifier message :
  published
    (fst (createMessageHandler Number_toString broker identifier "homeassistant/status" message))
  = map (discovery_message Number_toString identifier) sensors.
Proof.
  rewrite createMessageHandler_status. cbv zeta. cbn [fst published].
  rewrite ReducerFacts.published_app, published_burst.
  destruct (snd (publishDiscoveryMessages Number_toString broker identifier)) as [|[]|e];
    simpl; reflexivity.
Qed.

(** C7. Registry reset handling: on a message whose topic is
    [homeassistant/status] the handler hands exactly four messages to the
    client, the discovery configuration of [download_speed], [upload_speed],
    [latency] and [buffer_bloat], each on its own configuration topic and none
    on the state topic; on a message with any other topic it hands nothing to
    the client, writes the unknown-topic warning and returns normally. *)
Theorem registry_reset_handling (Number_toString : number -> string)
    (broker : string -> string -> promise unit) (identifier topic message : string) :
  let run := createMessageHandler Number_toString broker identifier topic message in
  (topic = "homeassistant/status" ->
     published (fst run) = map (discovery_message Number_toString identifier) sensors
     /\ List.length (published (fst run)) = 4%nat
     /\ map fst (published (fst run)) = map (discovery_topic identifier) sensors
     /\ ~ In (getStateTopic identifier) (map fst (published (fst run))))
  /\ (topic <> "homeassistant/status" ->
      published (fst run) = []
      /\ fst run = [unknown_topic_warning topic]
      /\ snd run = Fulfilled tt).
Proof.
  intros run. split.
  - intros ->. unfold run. rewrite published_status.
    split; [reflexivity|]. split; [reflexivity|]. split; [reflexivity|].
    simpl. intros H.
    repeat (destruct H as [H|H]; [exact (discovery_topic_not_state _ _ H)|]).
    exact H.
  - intros H. unfold run. rewrite (createMessageHandler_other _ _ _ _ _ H).
    repeat split; reflexivity.
Qed.

Lemma registry_reset_handling_witness :
  List.length
    (published
       (fst (createMessageHandler print_N acknowledge "abc" "homeassistant/status" "online")))
  = 4%nat.
Proof.
  apply (proj1 (registry_reset_handling print_N acknowledge "abc" "homeassistant/status"
                  "online") eq_refl).
Defined.

(** C9. Discovery determinism: what [publishDiscoverMessage] hands to the
    client is one message, on the topic
    [homeassistant/sensor/st_<identifier>/<sensor>/config], whose payload text
    is a function of the identifier and the sensor alone: two calls with the
    same identifier and sensor have the same effects, byte for byte, whatever
    the runtime and the broker do in between. *)
Theorem discovery_deterministic (Number_toString Number_toString' : number -> string)
    (broker broker' : string -> string -> promise unit) (identifier : string)
    (sensorType : SensorType) :
  published (fst (publishDiscoverMessage Number_toString broker identifier sensorType))
  = [(("homeassistant/sensor/st_" ++ identifier ++ "/" ++ SensorType_string sensorType
       ++ "/config")%string,
      JSON_stringify Number_toString (discovery_payload identifier sensorType))]
  /\ fst (publishDiscoverMessage Number_toString broker identifier sensorType)
     = fst (publishDiscoverMessage Number_toString' broker' identifier sensorType)
  /\ getDeviceIdentifier identifier = ("st_" ++ identifier)%string
  /\ published (fst (publishDiscoveryMessages Number_toString broker identifier))
     = published (fst (publishDiscoveryMessages Number_toString' broker' identifier)).
Proof.
  split; [reflexivity|]. split; [|split; [reflexivity|]].
  - rewrite !publishDiscoverMessage_run. cbn [fst].
    rewrite (discovery_payload_text Number_toString Number_toString'). reflexivity.
  - rewrite !published_burst. unfold sensors, discovery_message. cbn [map].
    rewrite !(discovery_payload_text Number_toString Number_toString'). reflexivity.
Qed.

(** C10, as the code has it. Message-handler fall-through: the block of
    [homeassistant/status] has no [break], so once the discovery burst it
    awaits is fulfilled the handler goes on into the [default] block and
    writes the unknown-topic warning: its effects are the reception line, the
    burst, and then exactly what the handler does on an unknown topic.  When
    the burst is rejected or never settles, the handler stops at the [await]
    with the outcome of the burst and writes no warning.  On every other topic
    the handler only writes the warning; so every message whose handling
    completes has the warning written. *)
Theorem handler_fall_through (Number_toString : number -> string)
    (broker : string -> string -> promise unit) (identifier topic message : string) :
  let run := createMessageHandler Number_toString broker identifier topic message in
  let burst := publishDiscoveryMessages Number_toString broker identifier in
  let received :=
    ConsoleLog ("[st2mqtt] Received " ++ String double_quote "homeassistant/status"
                ++ String double_quote " message")%string in
  (topic = "homeassistant/status" ->
     (snd burst = Fulfilled tt ->
        run = (received :: fst burst ++ [unknown_topic_warning topic], Fulfilled tt))
     /\ (snd burst <> Fulfilled tt ->
         run = (received :: fst burst, snd burst)
         /\ ~ In (unknown_topic_warning topic) (fst run)))
  /\ (topic <> "homeassistant/status" ->
      run = ([unknown_topic_warning topic], Fulfilled tt))
  /\ (snd run = Fulfilled tt -> In (unknown_topic_warning topic) (fst run)).
Proof.
  intros run burst received.
  assert (Hstatus : topic = "homeassistant/status" ->
            run = (received :: fst burst
                   ++ match snd burst with
                      | Fulfilled _ => [unknown_topic_warning "homeassistant/status"]
                      | _ => []
                      end,
                   snd burst)).
  { intros ->. unfold run. rewrite createMessageHandler_status. reflexivity. }
  split; [|split].
  - intros Htopic. pose proof (Hstatus Htopic) as Hrun. subst topic. split.
    + intros Hok. rewrite Hrun, Hok. reflexivity.
    + intros Hfail. assert (Hrun' : run = (received :: fst burst, snd burst)).
      { rewrite Hrun. destruct (snd burst) as [|[]|e]; rewrite ?app_nil_r;
          try reflexivity. congruence. }
      split; [exact Hrun'|]. rewrite Hrun'. cbn [fst].
      intros [H|H]; [discriminate|].
      exact (burst_has_no_warning _ _ _ _ H).
  - intros H. apply createMessageHandler_other. exact H.
  - intros Hdone. destruct (String.eqb_spec topic "homeassistant/status") as [Heq|Hneq].
    + rewrite (Hstatus Heq) in *. cbn [fst snd] in *. rewrite Hdone. subst topic.
      right. apply in_or_app. right. left. reflexivity.
    + unfold run. rewrite (createMessageHandler_other _ _ _ _ _ Hneq). left. reflexivity.
Qed.

Lemma handler_fall_through_witness :
  In (unknown_topic_warning "homeassistant/status")
     (fst (createMessageHandler print_N acknowledge "abc" "homeassistant/status" "online")).
Proof.
  apply (proj2 (proj2 (handler_fall_through print_N acknowledge "abc" "homeassistant/status"
                         "online")) eq_refl).
Defined.

(** A reset notification that arrives while the client is disconnecting:
    the burst is rejected, the handler with it, and no warning is written. *)
Lemma handler_warning_not_always_written :
  ~ In (unknown_topic_warning "homeassistant/status")
       (fst (createMessageHandler print_N disconnected "abc" "homeassistant/status" "online"))
  /\ snd (createMessageHandler print_N disconnected "abc" "homeassistant/status" "online")
     = Rejected (MkError "client disconnecting").
Proof.
  split; [|reflexivity].
  rewrite createMessageHandler_status. cbv zeta. cbn [fst].
  intros [H|H]; [discriminate|].
  apply in_app_or in H. destruct H as [H|H].
  - exact (burst_has_no_warning _ _ _ _ H).
  - exact H.
Qed.

End PublisherFacts.

(** ** Shutdown ([registerExitHandlers]) *)

Module ShutdownFacts.
Import Server.
Local Open Scope list_scope.

(** C8, where the code departs from it. Shutdown: the listeners of SIGHUP,
    SIGINT and SIGTERM call [process.exit] with 128 plus the number of the
    signal (129, 130, 143), and the first signal ends the process, whatever
    signals follow.  The calls that stop the cron job and end the MQTT client
    are in the listener of ['beforeExit'], which an explicit [process.exit]
    does not call: no signal runs them.  They run only when the event loop
    drains. *)
Theorem signal_exit_skips_cleanup (s : signal) (later : list signal) :
  let p := snd (registerExitHandlers []) in
  deliver_all p (s :: later)
  = ([ProcessExit (128 + signal_number s)], Exited (128 + signal_number s))
  /\ filter is_cleanup (fst (deliver_all p (s :: later))) = []
  /\ map signal_number [SIGHUP; SIGINT; SIGTERM] = [1; 2; 15]%Z
  /\ map (fun s' => snd (deliver p s')) [SIGHUP; SIGINT; SIGTERM]
     = [Exited 129; Exited 130; Exited 143]
  /\ listeners p beforeExit = [ConsoleLog "[st2mqtt] Cleaning up"; CronStop; MqttEnd]
  /\ drain p = ([ConsoleLog "[st2mqtt] Cleaning up"; CronStop; MqttEnd], Exited 0).
Proof.
  destruct s; repeat split; reflexivity.
Qed.

End ShutdownFacts.

(** ** More on the sampler and the session *)

Module StreamFacts.
Import Fast Sessions.
Local Open Scope list_scope.

(** *** The shape of a trace *)

(** One call of [init]: effects that neither close nor notify an end, then,
    when the call returns, the closing of the browser and the completion. *)
Lemma init_from_shape options :
  forall page previousResult,
    let run := init_from options previousResult page in
    exists body,
      List.concat (fst run)
      = body ++ match snd run with
                | Returned => [BrowserClose; ObserverComplete]
                | _ => []
                end
      /\ forallb quiet body = true.
Proof.
  induction page as [|p page IH]; intros previousResult; simpl.
  - exists []. split; reflexivity.
  - destruct p as [|result|e]; simpl.
    + exists [Evaluate]. split; reflexivity.
    + unfold init_iteration.
      destruct (stop_test options result).
      * exists (Evaluate :: (if emit_test result previousResult
                             then [ObserverNext result] else [])).
        simpl. destruct (emit_test result previousResult); split; reflexivity.
      * destruct (IH (Some result)) as [body [Hbody Hquiet]].
        destruct (init_from options (Some result) page) as [passes c]. simpl in *.
        exists ((Evaluate :: (if emit_test result previousResult
                              then [ObserverNext result] else []) ++ [Delay 100]) ++ body).
        split.
        -- rewrite Hbody. simpl. rewrite <- !app_assoc. reflexivity.
        -- rewrite forallb_app, Hquiet.
           destruct (emit_test result previousResult); reflexivity.
    + exists [Evaluate]. split; reflexivity.
Qed.

(** One subscription: quiet effects, then one of the three endings. *)
Lemma subscriber_shape options s :
  exists body tail,
    subscriber options s = body ++ tail /\ forallb quiet body = true /\ ending tail.
Proof.
  unfold subscriber, ending.
  destruct (launched s) as [|u|e].
  - exists [Launch], []. auto.
  - destruct (paged s) as [|u'|e].
    + exists [Launch; NewPage], []. auto.
    + destruct (navigated s) as [|u''|e].
      * exists [Launch; NewPage; Goto "https://fast.com"], []. auto.
      * destruct (init_from_shape options (evaluated s) None) as [body [Hbody Hquiet]].
        unfold init.
        destruct (init_from options None (evaluated s)) as [passes c]. simpl in *.
        exists ([Launch; NewPage; Goto "https://fast.com"] ++ body).
        rewrite Hbody.
        destruct c as [|e|previous].
        -- exists [BrowserClose; ObserverComplete].
           rewrite app_nil_r. split; [reflexivity|]. split; [exact Hquiet | auto].
        -- exists [ObserverError e].
           rewrite app_nil_r. split; [reflexivity|]. split; [exact Hquiet | eauto].
        -- exists []. rewrite !app_nil_r. split; [reflexivity|]. split; [exact Hquiet | auto].
      * exists [Launch; NewPage; Goto "https://fast.com"], [ObserverError e].
        split; [reflexivity|]. split; [reflexivity | eauto].
    + exists [Launch; NewPage], [ObserverError e].
      split; [reflexivity|]. split; [reflexivity | eauto].
  - exists [Launch], [ObserverError e].
    split; [reflexivity|]. split; [reflexivity | eauto].
Qed.

(** An effect that is not quiet sits in the ending. *)
Lemma loud_in_tail (body tail : list effect) :
  forall t1 e t2,
    forallb quiet body = true ->
    quiet e = false ->
    body ++ tail = t1 ++ e :: t2 ->
    exists pre, tail = pre ++ e :: t2.
Proof.
  induction body as [|b body IH]; intros t1 e t2 Hquiet He Heq; simpl in *.
  - exists t1. exact Heq.
  - apply andb_true_iff in Hquiet. destruct Hquiet as [Hb Hquiet].
    destruct t1 as [|x t1]; simpl in Heq; inversion Heq; subst.
    + congruence.
    + eapply IH; eassumption.
Qed.

(** X1. The observer protocol of one subscription of [runFastTest]: nothing
    follows a [complete] or an [error] notification, and a [browser.close()]
    is followed by the [complete] notification and nothing else. *)
Theorem observer_protocol options s t1 e t2
    (Hsplit : subscriber options s = t1 ++ e :: t2) :
  (is_terminal e = true -> t2 = [])
  /\ (e = BrowserClose -> t2 = [ObserverComplete]).
Proof.
  destruct (subscriber_shape options s) as [body [tail [Htrace [Hquiet Hend]]]].
  rewrite Htrace in Hsplit.
  assert (Hloud : quiet e = false ->
                  exists pre, tail = pre ++ e :: t2).
  { intros He. eapply loud_in_tail; eassumption. }
  split.
  - intros Hterminal.
    destruct Hloud as [pre Hpre].
    { unfold quiet. rewrite Hterminal, orb_true_r. reflexivity. }
    destruct Hend as [-> | [-> | [x ->]]].
    + destruct pre; discriminate.
    + destruct pre as [|a [|b pre]]; simpl in Hpre; inversion Hpre; subst.
      * discriminate.
      * reflexivity.
      * destruct pre; discriminate.
    + destruct pre as [|a pre]; simpl in Hpre; inversion Hpre; subst.
      * reflexivity.
      * destruct pre; discriminate.
  - intros ->.
    destruct Hloud as [pre Hpre]; [reflexivity|].
    destruct Hend as [-> | [-> | [x ->]]].
    + destruct pre; discriminate.
    + destruct pre as [|a [|b pre]]; simpl in Hpre; inversion Hpre; subst.
      * reflexivity.
      * destruct pre; discriminate.
    + destruct pre as [|a pre]; simpl in Hpre; inversion Hpre; subst.
      destruct pre; discriminate.
Qed.

Lemma observer_protocol_witness :
  (is_terminal (ObserverError (MkError "net::ERR_NAME_NOT_RESOLVED")) = true ->
   @nil effect = [])
  /\ (ObserverError (MkError "net::ERR_NAME_NOT_RESOLVED") = BrowserClose ->
      @nil effect = [ObserverComplete]).
Proof.
  apply (observer_protocol {| measureUpload := Some true |} navigation_failure
           [Launch; NewPage; Goto "https://fast.com"]
           (ObserverError (MkError "net::ERR_NAME_NOT_RESOLVED")) []).
  reflexivity.
Defined.

(** *** What is emitted *)

Lemma init_from_emits_shown options :
  forall page previousResult r,
    In r (emitted (List.concat (fst (init_from options previousResult page)))) ->
    In (Fulfilled r) page.
Proof.
  induction page as [|p page IH]; intros previousResult r Hin; simpl in *.
  - contradiction.
  - destruct p as [|result|e]; simpl in *; try contradiction.
    unfold init_iteration in Hin.
    destruct (stop_test options result).
    + simpl in Hin. rewrite app_nil_r, SamplerFacts.emitted_app in Hin.
      apply in_app_or in Hin. destruct Hin as [Hin|Hin]; [|simpl in Hin; contradiction].
      destruct (emit_test result previousResult); simpl in Hin; [|contradiction].
      destruct Hin as [->|[]]. left. reflexivity.
    + specialize (IH (Some result) r).
      destruct (init_from options (Some result) page) as [passes c]. simpl in *.
      rewrite !SamplerFacts.emitted_app in Hin.
      apply in_app_or in Hin. destruct Hin as [Hin|Hin].
      * apply in_app_or in Hin. destruct Hin as [Hin|Hin]; [|simpl in Hin; contradiction].
        destruct (emit_test result previousResult); simpl in Hin; [|contradiction].
        destruct Hin as [->|[]]. left. reflexivity.
      * right. apply IH. exact Hin.
Qed.

(** X2. Every reading that one subscription of [runFastTest] emits is a
    reading that [page.evaluate] answered in that session, and its download
    speed is present and greater than 0 (so it is neither null, nor 0, nor
    NaN). *)
Theorem emitted_readings_shown_and_positive options s r
    (Hemitted : In r (emitted (subscriber options s))) :
  In (Fulfilled r) (evaluated s)
  /\ exists speed, downloadSpeed r = Some speed /\ (0 <? speed)%float = true.
Proof.
  split.
  - unfold subscriber in Hemitted.
    destruct (launched s) as [|u|e]; try (simpl in Hemitted; contradiction).
    destruct (paged s) as [|u'|e]; try (simpl in Hemitted; contradiction).
    destruct (navigated s) as [|u''|e]; try (simpl in Hemitted; contradiction).
    pose proof (init_from_emits_shown options (evaluated s) None r) as Hshown.
    unfold init in Hemitted.
    destruct (init_from options None (evaluated s)) as [passes c]. simpl in *.
    rewrite SamplerFacts.emitted_app in Hemitted.
    apply in_app_or in Hemitted. destruct Hemitted as [Hin|Hin].
    + apply Hshown. exact Hin.
    + destruct c; simpl in Hin; contradiction.
  - pose proof (PipelineFacts.subscriber_emits_positive options s) as Hall.
    rewrite Forall_forall in Hall. exact (Hall r Hemitted).
Qed.

Lemma emitted_readings_shown_and_positive_witness :
  In (Fulfilled (reading (Some 50%float) None false)) (evaluated extraction_failure)
  /\ exists speed,
       downloadSpeed (reading (Some 50%float) None false) = Some speed
       /\ (0 <? speed)%float = true.
Proof.
  apply (emitted_readings_shown_and_positive {| measureUpload := Some true |}
           extraction_failure (reading (Some 50%float) None false)).
  simpl. left. reflexivity.
Defined.

(** *** Sampling faster *)

Lemma FastResult_eqb_refl (r : FastResult) : FastResult_eqb r r = true.
Proof. apply SamplerFacts.FastResult_eqb_eq. reflexivity. Qed.

Lemma emitted_concat_cons (pass : list effect) (passes : list (list effect)) :
  emitted (List.concat (pass :: passes)) = emitted pass ++ emitted (List.concat passes).
Proof. simpl. apply SamplerFacts.emitted_app. Qed.

Lemma init_from_stutter options :
  forall ticks previousResult,
    emitted (List.concat (fst (init_from options previousResult
                                 (map Fulfilled (stutter ticks)))))
    = emitted (List.concat (fst (init_from options previousResult (map Fulfilled ticks))))
    /\ snd (init_from options previousResult (map Fulfilled (stutter ticks)))
       = snd (init_from options previousResult (map Fulfilled ticks)).
Proof.
  induction ticks as [|r ticks IH]; intros previousResult.
  - split; reflexivity.
  - cbn [stutter map init_from]. unfold init_iteration.
    destruct (stop_test options r) eqn:Hstop.
    + split; reflexivity.
    + assert (Hdup : emit_test r (Some r) = false).
      { unfold emit_test, isDeepStrictEqual. rewrite FastResult_eqb_refl.
        destruct (downloadSpeed r); [apply andb_false_r | reflexivity]. }
      rewrite Hdup.
      destruct (IH (Some r)) as [IHe IHc].
      destruct (init_from options (Some r) (map Fulfilled (stutter ticks))) as [passes c].
      destruct (init_from options (Some r) (map Fulfilled ticks)) as [passes' c'].
      cbn [fst snd] in *. split; [|exact IHc].
      rewrite !emitted_concat_cons, IHe.
      destruct (emit_test r previousResult); reflexivity.
Qed.

(** X3. Sampling the page twice as fast changes nothing for the observer:
    when every state of the page is seen twice in a row, [init] emits the same
    readings in the same order, and ends the same way. *)
Theorem stutter_invariance options (ticks : list FastResult) :
  emitted (List.concat (fst (init options (map Fulfilled (stutter ticks)))))
  = emitted (List.concat (fst (init options (map Fulfilled ticks))))
  /\ snd (init options (map Fulfilled (stutter ticks)))
     = snd (init options (map Fulfilled ticks)).
Proof. apply init_from_stutter. Qed.

(** *** Pacing *)

Lemma init_from_pacing options :
  forall page previousResult,
    let run := init_from options previousResult page in
    (snd run = Returned ->
     List.length (filter is_evaluate (List.concat (fst run)))
     = S (List.length (filter is_delay (List.concat (fst run)))))
    /\ (forall ms, In (Delay ms) (List.concat (fst run)) -> ms = 100%Z).
Proof.
  induction page as [|p page IH]; intros previousResult; simpl.
  - split; [discriminate | contradiction].
  - destruct p as [|result|e]; simpl.
    + split; [discriminate | intros ms [H|[]]; discriminate].
    + unfold init_iteration. destruct (stop_test options result).
      * simpl. split.
        -- intros _. destruct (emit_test result previousResult); reflexivity.
        -- intros ms H. destruct (emit_test result previousResult); simpl in H;
             repeat (destruct H as [H|H]; [discriminate|]); contradiction.
      * destruct (IH (Some result)) as [IHn IHd].
        destruct (init_from options (Some result) page) as [passes c]. simpl in *.
        split.
        -- intros Hc. specialize (IHn Hc).
           destruct (emit_test result previousResult); simpl;
             rewrite ?filter_app, ?length_app; simpl; rewrite IHn; reflexivity.
        -- intros ms H.
           destruct H as [H|H]; [discriminate|].
           apply in_app_or in H. destruct H as [H|H]; [|exact (IHd ms H)].
           apply in_app_or in H. destruct H as [H|H].
           ++ destruct (emit_test result previousResult); simpl in H;
                [destruct H as [H|[]]; discriminate | contradiction].
           ++ destruct H as [H|[]]. inversion H. reflexivity.
    + split; [discriminate | intros ms [H|[]]; discriminate].
Qed.

(** X4. Pacing of the sampling loop: a call of [init] that returns has slept
    once between two consecutive samplings and not after the last one (one
    [page.evaluate] more than [delay]s), and every sleep it ever takes is of
    100 ms. *)
Theorem sampling_pace options (page : list (promise FastResult)) :
  (snd (init options page) = Returned ->
   List.length (filter is_evaluate (List.concat (fst (init options page))))
   = S (List.length (filter is_delay (List.concat (fst (init options page))))))
  /\ (forall ms, In (Delay ms) (List.concat (fst (init options page))) -> ms = 100%Z).
Proof. apply init_from_pacing. Qed.

Lemma sampling_pace_witness :
  List.length (filter is_evaluate
                 (List.concat (fst (init {| measureUpload := Some true |}
                                      (map Fulfilled scenario_1)))))
  = S (List.length (filter is_delay
                      (List.concat (fst (init {| measureUpload := Some true |}
                                           (map Fulfilled scenario_1)))))).
Proof.
  apply (proj1 (sampling_pace {| measureUpload := Some true |} (map Fulfilled scenario_1))).
  reflexivity.
Defined.

End StreamFacts.

(** ** From the page to the bus *)

Module EndToEndFacts.
Import Server Sessions.
Local Open Scope list_scope.

Lemma latest_last (before : option Fast.FastResult) (readings : list Fast.FastResult)
    (r : Fast.FastResult) :
  latest before (readings ++ [r]) = Some r.
Proof. unfold latest. rewrite fold_left_app. reflexivity. Qed.

Lemma quiet_open (body : list Fast.effect) :
  forallb quiet body = true -> open_stream body = true.
Proof.
  unfold open_stream. induction body as [|e body IH]; simpl; [reflexivity|].
  intros H. apply andb_true_iff in H. destruct H as [He H].
  rewrite (IH H), andb_true_r.
  unfold quiet, is_terminal in He. destruct e; simpl in *; congruence.
Qed.

(** When upload measurement is requested, the loop goes on over readings
    that are not done and stops at the first one that is; that reading is
    emitted as soon as its download speed is above 0. *)
Lemma init_from_done (before after : list Fast.FastResult) (result : Fast.FastResult)
    (speed : number) :
  forallb (fun r => negb (Fast.isDone r)) before = true ->
  Fast.isDone result = true ->
  Fast.downloadSpeed result = Some speed ->
  (0 <? speed)%float = true ->
  forall previousResult,
    (forall p, previousResult = Some p -> Fast.isDone p = false) ->
    exists body,
      List.concat
        (fst (Fast.init_from {| Fast.measureUpload := Some true |} previousResult
                (map Fulfilled (before ++ result :: after))))
      = body ++ [Fast.ObserverNext result; Fast.BrowserClose; Fast.ObserverComplete]
      /\ open_stream body = true.
Proof.
  intros Hbefore Hdone Hspeed Hpositive.
  induction before as [|r before IH]; intros previousResult Hprevious.
  - cbn [app map Fast.init_from]. unfold Fast.init_iteration.
    assert (Hstop : Fast.stop_test {| Fast.measureUpload := Some true |} result = true).
    { unfold Fast.stop_test. rewrite Hdone. reflexivity. }
    assert (Hemit : Fast.emit_test result previousResult = true).
    { apply SamplerFacts.emit_test_true. split; [eauto|].
      intros Heq. specialize (Hprevious result Heq). congruence. }
    rewrite Hstop, Hemit. exists [Fast.Evaluate]. split; reflexivity.
  - simpl in Hbefore. apply andb_true_iff in Hbefore. destruct Hbefore as [Hr Hbefore].
    apply negb_true_iff in Hr.
    cbn [app map Fast.init_from]. unfold Fast.init_iteration.
    assert (Hstop : Fast.stop_test {| Fast.measureUpload := Some true |} r = false).
    { unfold Fast.stop_test. rewrite Hr. reflexivity. }
    rewrite Hstop.
    destruct (IH Hbefore (Some r)) as [body [Hbody Hopen]].
    { intros p Hp. inversion Hp; subst. exact Hr. }
    destruct (Fast.init_from {| Fast.measureUpload := Some true |} (Some r)
                (map Fulfilled (before ++ result :: after))) as [passes c].
    cbn [fst snd] in *.
    exists ((Fast.Evaluate
             :: (if Fast.emit_test r previousResult then [Fast.ObserverNext r] else [])
             ++ [Fast.Delay 100]) ++ body).
    split.
    + rewrite concat_cons, Hbody, app_assoc. reflexivity.
    + unfold open_stream in *. rewrite forallb_app, Hopen.
      destruct (Fast.emit_test r previousResult); reflexivity.
Qed.

Lemma subscriber_healthy options (ticks : list Fast.FastResult) :
  Fast.subscriber options (healthy ticks)
  = [Fast.Launch; Fast.NewPage; Fast.Goto "https://fast.com"]
    ++ List.concat (fst (Fast.init options (map Fulfilled ticks)))
    ++ match snd (Fast.init options (map Fulfilled ticks)) with
       | Fast.Threw e => [Fast.ObserverError e]
       | _ => []
       end.
Proof.
  unfold Fast.subscriber, healthy. cbn [Fast.launched Fast.paged Fast.navigated Fast.evaluated].
  destruct (Fast.init options (map Fulfilled ticks)). reflexivity.
Qed.

Lemma runSpeedTest_healthy (ticks : list Fast.FastResult) :
  runSpeedTest (healthy ticks)
  = (map Browser (Fast.subscriber {| Fast.measureUpload := Some true |} (healthy ticks)),
     subscribe None (Fast.subscriber {| Fast.measureUpload := Some true |} (healthy ticks))).
Proof. reflexivity. Qed.

(** X5. The reading that decides a measurement: [runSpeedTest] requests the
    upload measurement, so the sampling goes on until the page is done; when
    the reading at which the page is done has a download speed above 0, the
    result of [runSpeedTest] is computed from that reading and from no earlier
    one, whatever the earlier ones held. *)
Theorem result_from_done_reading (before after : list Fast.FastResult)
    (result : Fast.FastResult) (speed : number)
    (Hbefore : forallb (fun r => negb (Fast.isDone r)) before = true)
    (Hdone : Fast.isDone result = true)
    (Hspeed : Fast.downloadSpeed result = Some speed)
    (Hpositive : (0 <? speed)%float = true) :
  snd (runSpeedTest (healthy (before ++ result :: after))) = complete (Some result).
Proof.
  rewrite runSpeedTest_healthy, subscriber_healthy. cbn [snd]. unfold Fast.init.
  destruct (init_from_done before after result speed Hbefore Hdone Hspeed Hpositive None)
    as [body [Hbody Hopen]]; [discriminate|].
  rewrite Hbody.
  rewrite <- app_assoc, (app_assoc _ body).
  rewrite ReducerFacts.subscribe_app.
  - rewrite SamplerFacts.emitted_app. reflexivity.
  - unfold open_stream in *. rewrite forallb_app, Hopen. reflexivity.
Qed.

Lemma result_from_done_reading_witness :
  snd (runSpeedTest
         (healthy
            ([unfinished (Server.final_reading (Some 90%float) (Some 20%float)
                            (Some 20%float) (Some 35%float))]
             ++ final_reading (Some 91%float) (Some 21%float) None None :: [])))
  = complete (Some (final_reading (Some 91%float) (Some 21%float) None None)).
Proof.
  apply (result_from_done_reading
           [unfinished (Server.final_reading (Some 90%float) (Some 20%float)
                          (Some 20%float) (Some 35%float))]
           [] (final_reading (Some 91%float) (Some 21%float) None None) 91%float);
    reflexivity.
Defined.

(** *** Failures *)

Lemma quiet_no_error (body : list Fast.effect) (e : Error) :
  forallb quiet body = true -> ~ In (Fast.ObserverError e) body.
Proof.
  induction body as [|b body IH]; simpl; intros H Hin; [exact Hin|].
  apply andb_true_iff in H. destruct H as [Hb H].
  destruct Hin as [->|Hin]; [discriminate | exact (IH H Hin)].
Qed.

Lemma runAndReport_unsettled Number_toString broker identifier s :
  (forall value, snd (runSpeedTest s) <> Fulfilled value) ->
  runAndReport Number_toString broker identifier s
  = (ConsoleLog "[st2mqtt] Starting speed test" :: fst (runSpeedTest s),
     match snd (runSpeedTest s) with
     | Rejected e => Rejected e
     | _ => Pending
     end).
Proof.
  intros H. unfold runAndReport, await, console_log.
  destruct (runSpeedTest s) as [t [|value|e]]; cbn [fst snd] in *.
  - reflexivity.
  - exfalso. exact (H value eq_refl).
  - reflexivity.
Qed.

(** X6. No partial result: when one subscription of [runFastTest] signals an
    error (the launch, the navigation or a sampling failed), [runSpeedTest]
    is rejected with that error, however complete the readings emitted before
    were; [runAndReport] is rejected with it too and hands nothing to the
    client. *)
Theorem failure_discards_readings (Number_toString : number -> string)
    (broker : string -> string -> promise unit) (identifier : string)
    (s : Fast.session) (path : string) (e : Error)
    (Hpath : Fast.getChromeExecutablePath s = Fulfilled path)
    (Herror : In (Fast.ObserverError e)
                 (Fast.subscriber {| Fast.measureUpload := Some true |} s)) :
  snd (runSpeedTest s) = Rejected e
  /\ snd (runAndReport Number_toString broker identifier s) = Rejected e
  /\ published (fst (runAndReport Number_toString broker identifier s)) = [].
Proof.
  assert (Hrun : snd (runSpeedTest s) = Rejected e).
  { unfold runSpeedTest, Fast.runFastTest. rewrite Hpath. cbn [snd].
    destruct (StreamFacts.subscriber_shape {| Fast.measureUpload := Some true |} s)
      as [body [tail [Htrace [Hquiet Hend]]]].
    rewrite Htrace in *.
    apply in_app_or in Herror. destruct Herror as [Hin|Hin].
    - exfalso. exact (quiet_no_error body e Hquiet Hin).
    - rewrite ReducerFacts.subscribe_app by (apply quiet_open; exact Hquiet).
      destruct Hend as [-> | [-> | [x ->]]].
      + contradiction.
      + simpl in Hin. destruct Hin as [H|[H|[]]]; discriminate.
      + simpl in Hin. destruct Hin as [H|[]]. inversion H; subst. reflexivity. }
  split; [exact Hrun|].
  rewrite runAndReport_unsettled by (intros value H; congruence).
  rewrite Hrun. cbn [fst snd published].
  split; [reflexivity | apply ReducerFacts.published_runSpeedTest].
Qed.

Lemma failure_discards_readings_witness :
  snd (runSpeedTest Fast.extraction_failure)
  = Rejected (MkError "Execution context was destroyed").
Proof.
  apply (failure_discards_readings print_N acknowledge "abc" Fast.extraction_failure
           "/usr/bin/chromium-browser" (MkError "Execution context was destroyed")).
  - reflexivity.
  - simpl. do 7 right. left. reflexivity.
Defined.

(** *** What a measurement publishes *)

Lemma published_logs (t : list effect) :
  forallb (fun e => negb (is_publish e)) t = true -> published t = [].
Proof.
  induction t as [|e t IH]; simpl; [reflexivity|].
  intros H. apply andb_true_iff in H. destruct H as [He H].
  destruct e; simpl in *; try discriminate; exact (IH H).
Qed.

Lemma runAndReport_fulfilled Number_toString broker identifier s result :
  snd (runSpeedTest s) = Fulfilled result ->
  published (fst (runAndReport Number_toString broker identifier s))
  = published (fst (publishSpeedTestResult Number_toString broker identifier result)).
Proof.
  intros H. unfold runAndReport, await, console_log.
  pose proof (ReducerFacts.published_runSpeedTest s) as Hquiet.
  destruct (runSpeedTest s) as [t p]. cbn [fst snd] in *. subst p.
  destruct (publishSpeedTestResult Number_toString broker identifier result) as [u q].
  cbn [fst]. rewrite !ReducerFacts.published_app. rewrite Hquiet. reflexivity.
Qed.

(** X8. What one measurement publishes: [runAndReport] hands at most one
    message to the client; when it hands one, [runSpeedTest] has resolved to a
    result whose download speed is at least 5, and the message is the state
    message of that result on the state topic. *)
Theorem report_publishes_at_most_once (Number_toString : number -> string)
    (broker : string -> string -> promise unit) (identifier : string) (s : Fast.session) :
  published (fst (runAndReport Number_toString broker identifier s)) = []
  \/ exists result,
       snd (runSpeedTest s) = Fulfilled result
       /\ (5 <=? downloadSpeed result)%float = true
       /\ published (fst (runAndReport Number_toString broker identifier s))
          = [state_message Number_toString identifier result].
Proof.
  destruct (snd (runSpeedTest s)) as [|result|e] eqn:Hrun.
  - left. rewrite runAndReport_unsettled by (rewrite Hrun; discriminate).
    cbn [fst published]. apply ReducerFacts.published_runSpeedTest.
  - rewrite (runAndReport_fulfilled _ _ _ _ _ Hrun).
    pose proof (PipelineFacts.runSpeedTest_speed_positive s result Hrun) as Hpositive.
    apply NumberFacts.ltb_true_not_nan in Hpositive. destruct Hpositive as [_ Hnumber].
    unfold publishSpeedTestResult.
    destruct (downloadSpeed result <? 5)%float eqn:Hlow.
    + left. reflexivity.
    + right. exists result. split; [reflexivity|]. split.
      * rewrite (NumberFacts.ltb_negb_leb (downloadSpeed result) 5%float Hnumber eq_refl)
          in Hlow.
        apply negb_false_iff in Hlow. exact Hlow.
      * reflexivity.
  - left. rewrite runAndReport_unsettled by (rewrite Hrun; discriminate).
    cbn [fst published]. apply ReducerFacts.published_runSpeedTest.
Qed.

End EndToEndFacts.

(** ** Topics and payloads *)

Module NamespaceFacts.
Import Server Payloads.
Local Open Scope list_scope.

Lemma reversed_app (a b : string) :
  reversed (a ++ b)%string = reversed b ++ reversed a.
Proof.
  unfold reversed. rewrite <- rev_app_distr. f_equal.
  induction a as [|c a IH]; simpl; [reflexivity | rewrite IH; reflexivity].
Qed.

Lemma reversed_inj (a b : string) : reversed a = reversed b -> a = b.
Proof.
  unfold reversed. intros H.
  apply (f_equal (@rev ascii)) in H. rewrite !rev_involutive in H.
  apply (f_equal string_of_list_ascii) in H.
  rewrite !string_of_list_ascii_of_string in H. exact H.
Qed.

Lemma string_app_inv_tail (a b t : string) : (a ++ t)%string = (b ++ t)%string -> a = b.
Proof.
  intros H. apply (f_equal reversed) in H. rewrite !reversed_app in H.
  apply app_inv_head in H. apply reversed_inj. exact H.
Qed.

(** The part of a discovery topic after the device identifier determines
    the sensor, whatever the identifiers are. *)
Lemma sensor_suffix_inj (a b : string) (s s' : SensorType) :
  (a ++ "/" ++ SensorType_string s ++ "/config")%string
  = (b ++ "/" ++ SensorType_string s' ++ "/config")%string ->
  a = b /\ s = s'.
Proof.
  intros H.
  destruct s, s';
    try (split; [exact (string_app_inv_tail _ _ _ H) | reflexivity]);
    exfalso; apply (f_equal reversed) in H; rewrite !reversed_app in H;
    cbv [reversed list_ascii_of_string SensorType_string append rev app] in H;
    simpl in H; discriminate H.
Qed.

Lemma config_is_not_state (a b : string) (s : SensorType) :
  (a ++ "/" ++ SensorType_string s ++ "/config")%string <> (b ++ "/state")%string.
Proof.
  intros H. apply (f_equal reversed) in H. rewrite !reversed_app in H.
  destruct s; cbv [reversed list_ascii_of_string SensorType_string append rev app] in H;
    simpl in H; discriminate H.
Qed.

(** X10. Topics keep devices and sensors apart: two identifiers with the
    same state topic are the same identifier; two discovery topics are the
    same only for the same identifier and the same sensor; and no discovery
    topic of any device is the state topic of any device. *)
Theorem topics_keep_apart (identifier identifier' : string) (s s' : SensorType) :
  (getStateTopic identifier = getStateTopic identifier' -> identifier = identifier')
  /\ (discovery_topic identifier s = discovery_topic identifier' s' ->
      identifier = identifier' /\ s = s')
  /\ discovery_topic identifier s <> getStateTopic identifier'.
Proof.
  unfold getStateTopic, discovery_topic, getDeviceIdentifier.
  split; [|split].
  - intros H. apply PublisherFacts.string_app_inv_head in H.
    change ("st_" ++ identifier ++ "/state")%string
      with ("st_" ++ (identifier ++ "/state"))%string in H.
    apply (PublisherFacts.string_app_inv_head "st_") in H.
    exact (string_app_inv_tail _ _ _ H).
  - intros H. apply PublisherFacts.string_app_inv_head in H.
    apply (PublisherFacts.string_app_inv_head "st_") in H.
    exact (sensor_suffix_inj _ _ _ _ H).
  - intros H. apply PublisherFacts.string_app_inv_head in H.
    exact (config_is_not_state _ _ _ H).
Qed.

Lemma topics_keep_apart_witness : "abc" = "abc" /\ latency_sensor = latency_sensor.
Proof.
  apply (proj1 (proj2 (topics_keep_apart "abc" "abc" latency_sensor latency_sensor))).
  reflexivity.
Defined.

Lemma state_topic_not_status (identifier : string) :
  getStateTopic identifier <> "homeassistant/status"%string.
Proof. unfold getStateTopic. simpl. discriminate. Qed.

Lemma discovery_topic_not_status (identifier : string) (s : SensorType) :
  discovery_topic identifier s <> "homeassistant/status"%string.
Proof. unfold discovery_topic. simpl. discriminate. Qed.

(** X9. The server never publishes on the topic it listens to: no message
    that the message handler or a measurement hands to the client has the
    topic [homeassistant/status], so the server's own messages cannot start a
    discovery burst. *)
Theorem never_publishes_on_status (Number_toString : number -> string)
    (broker : string -> string -> promise unit) (identifier topic message : string)
    (s : Fast.session) (published_topic payload : string)
    (Hpublished :
       In (published_topic, payload)
          (published (fst (createMessageHandler Number_toString broker identifier topic
                             message)))
       \/ In (published_topic, payload)
             (published (fst (runAndReport Number_toString broker identifier s)))) :
  published_topic <> "homeassistant/status"%string.
Proof.
  destruct Hpublished as [Hin|Hin].
  - destruct (String.eqb_spec topic "homeassistant/status") as [->|Hother].
    + rewrite PublisherFacts.published_status in Hin. simpl in Hin.
      repeat (destruct Hin as [Hin|Hin];
              [inversion Hin; subst; apply discovery_topic_not_status|]).
      contradiction.
    + rewrite (PublisherFacts.createMessageHandler_other _ _ _ _ _ Hother) in Hin.
      simpl in Hin. contradiction.
  - destruct (snd (runSpeedTest s)) as [|result|e] eqn:Hrun.
    + rewrite EndToEndFacts.runAndReport_unsettled in Hin by (rewrite Hrun; discriminate).
      cbn [fst published] in Hin. rewrite ReducerFacts.published_runSpeedTest in Hin.
      contradiction.
    + rewrite (EndToEndFacts.runAndReport_fulfilled _ _ _ _ _ Hrun) in Hin.
      unfold publishSpeedTestResult in Hin.
      destruct (downloadSpeed result <? 5)%float; simpl in Hin; [contradiction|].
      destruct Hin as [Hin|[]]. inversion Hin; subst. apply state_topic_not_status.
    + rewrite EndToEndFacts.runAndReport_unsettled in Hin by (rewrite Hrun; discriminate).
      cbn [fst published] in Hin. rewrite ReducerFacts.published_runSpeedTest in Hin.
      contradiction.
Qed.

Lemma never_publishes_on_status_witness :
  discovery_topic "abc" download_speed <> "homeassistant/status"%string.
Proof.
  apply (never_publishes_on_status print_N acknowledge "abc" "homeassistant/status" "online"
           Fast.navigation_failure (discovery_topic "abc" download_speed)
           (JSON_stringify print_N (discovery_payload "abc" download_speed))).
  left. simpl. left. reflexivity.
Defined.

(** X11. Discovery and state fit together: the discovery payload of every
    sensor names, as its state topic, the topic on which
    [publishSpeedTestResult] publishes, and its value template selects a key
    of the state payload, under which the state payload holds the measured
    value of that very sensor; the unique ids of the sensors of one device are
    pairwise different. *)
Theorem discovery_matches_state (Number_toString : number -> string) (identifier : string)
    (s s' : SensorType) (result : SpeedTestResult) :
  state_message Number_toString identifier result
  = (getStateTopic identifier, JSON_stringify Number_toString (state_payload result))
  /\ property "state_topic" (discovery_payload identifier s)
     = Some (JString (getStateTopic identifier))
  /\ property "value_template" (discovery_payload identifier s)
     = Some (JString ("{{ value_json." ++ SensorType_string s ++ " }}")%string)
  /\ property (SensorType_string s) (state_payload result)
     = Some (JNumber (measured s result))
  /\ (property "unique_id" (discovery_payload identifier s)
      = property "unique_id" (discovery_payload identifier s') -> s = s').
Proof.
  split; [reflexivity|]. split; [reflexivity|]. split; [reflexivity|].
  split; [destruct s; reflexivity|].
  cbn [property discovery_payload member String.eqb Ascii.eqb Bool.eqb].
  simpl. intros H. inversion H as [Hid].
  apply (PublisherFacts.string_app_inv_head identifier) in Hid.
  destruct s, s'; try reflexivity; discriminate Hid.
Qed.

Lemma discovery_matches_state_witness : latency_sensor = latency_sensor.
Proof.
  apply (proj2 (proj2 (proj2 (proj2
           (discovery_matches_state print_N "abc" latency_sensor latency_sensor
              {| downloadSpeed := 90%float; uploadSpeed := 20%float; latency := 20%float;
                 bufferBloat := 15%float |}))))).
  reflexivity.
Defined.

(** X12. The outcome of a discovery burst: [publishDiscoveryMessages] hands
    the four discovery messages to the client whatever the client answers, and
    is fulfilled if and only if the client fulfils all four. *)
Theorem burst_all_or_nothing (Number_toString : number -> string)
    (broker : string -> string -> promise unit) (identifier : string) :
  published (fst (publishDiscoveryMessages Number_toString broker identifier))
  = map (discovery_message Number_toString identifier) sensors
  /\ (snd (publishDiscoveryMessages Number_toString broker identifier) = Fulfilled tt
      <-> forall s,
            broker (discovery_topic identifier s)
                   (JSON_stringify Number_toString (discovery_payload identifier s))
            = Fulfilled tt).
Proof.
  split; [apply PublisherFacts.published_burst|].
  unfold publishDiscoveryMessages, Promise_all.
  cbn [map snd]. rewrite !PublisherFacts.publishDiscoverMessage_run. cbn [snd].
  split.
  - intros H s.
    destruct (broker (discovery_topic identifier download_speed)
                (JSON_stringify Number_toString (discovery_payload identifier download_speed)))
      as [|[]|e1] eqn:H1;
    destruct (broker (discovery_topic identifier upload_speed)
                (JSON_stringify Number_toString (discovery_payload identifier upload_speed)))
      as [|[]|e2] eqn:H2;
    destruct (broker (discovery_topic identifier latency_sensor)
                (JSON_stringify Number_toString (discovery_payload identifier latency_sensor)))
      as [|[]|e3] eqn:H3;
    destruct (broker (discovery_topic identifier buffer_bloat)
                (JSON_stringify Number_toString (discovery_payload identifier buffer_bloat)))
      as [|[]|e4] eqn:H4;
    cbn [all_settled] in H; try discriminate H.
    destruct s; assumption.
  - intros H.
    rewrite (H download_speed), (H upload_speed), (H latency_sensor), (H buffer_bloat).
    reflexivity.
Qed.

Lemma burst_all_or_nothing_witness :
  snd (publishDiscoveryMessages print_N acknowledge "abc") = Fulfilled tt.
Proof.
  apply (proj2 (proj2 (burst_all_or_nothing print_N acknowledge "abc"))).
  intros s. reflexivity.
Defined.

End NamespaceFacts.

(** ** Starting the server *)

Module OrchestratorFacts.
Import Server Orchestrator.
Local Open Scope list_scope.

Lemma filter_Did (f : step -> bool) (t : list effect) :
  (forall e, f (Did e) = false) -> filter f (map Did t) = [].
Proof.
  intros H. induction t as [|e t IH]; simpl; [reflexivity|]. rewrite H. exact IH.
Qed.

Ltac settle_startServer :=
  intros; unfold startServer, and_then, lift, thrown, schedule_of;
  try match goal with
      | |- context [connected ?c] => destruct (connected c) as [|[]|?]
      end;
  try match goal with
      | |- context [publishDiscoveryMessages ?n ?b ?i] =>
          destruct (publishDiscoveryMessages n b i) as [? [|[]|?]]
      end;
  try match goal with
      | |- context [runAndReport ?n ?b ?i ?s] =>
          destruct (runAndReport n b i s) as [? [|[]|?]]
      end;
  try match goal with
      | |- context [subscribed ?c] => destruct (subscribed c) as [|[]|?]
      end;
  try match goal with
      | |- context [scheduled ?c] => destruct (scheduled c)
      end;
  unfold console_log; cbn.

Lemma startServer_subscribes Number_toString broker c s p url identifier options :
  filter is_subscribe
    (fst (startServer Number_toString broker c s p url identifier options))
  = if fulfilled (connected c)
       && fulfilled (snd (publishDiscoveryMessages Number_toString broker identifier))
       && fulfilled (snd (runAndReport Number_toString broker identifier s))
    then [Subscribe "homeassistant/status"]
    else [].
Proof.
  settle_startServer;
    rewrite ?filter_app, ?(filter_Did is_subscribe) by reflexivity; reflexivity.
Qed.

Lemma startServer_schedules Number_toString broker c s p url identifier options :
  filter is_schedule
    (fst (startServer Number_toString broker c s p url identifier options))
  = if fulfilled (connected c)
       && fulfilled (snd (publishDiscoveryMessages Number_toString broker identifier))
       && fulfilled (snd (runAndReport Number_toString broker identifier s))
       && fulfilled (subscribed c)
    then [Schedule (schedule_of options)]
    else [].
Proof.
  settle_startServer;
    rewrite ?filter_app, ?(filter_Did is_schedule) by reflexivity; reflexivity.
Qed.

Lemma startServer_fulfilled Number_toString broker c s p url identifier options :
  (fulfilled (connected c)
   && fulfilled (snd (publishDiscoveryMessages Number_toString broker identifier))
   && fulfilled (snd (runAndReport Number_toString broker identifier s))
   && fulfilled (subscribed c) = true ->
   snd (startServer Number_toString broker c s p url identifier options)
   = match scheduled c with
     | None => Fulfilled (snd (registerExitHandlers p))
     | Some e => Rejected e
     end)
  /\ (fulfilled (connected c)
      && fulfilled (snd (publishDiscoveryMessages Number_toString broker identifier))
      && fulfilled (snd (runAndReport Number_toString broker identifier s))
      && fulfilled (subscribed c) = false ->
      fulfilled (snd (startServer Number_toString broker c s p url identifier options))
      = false).
Proof. settle_startServer; split; intros; try reflexivity; try discriminate. Qed.

Lemma startServer_head Number_toString broker c s p url identifier options :
  exists rest,
    fst (startServer Number_toString broker c s p url identifier options)
    = Connect url (mqttUsername options) (mqttPassword options)
      :: (if fulfilled (connected c) then OnMessage :: rest else []).
Proof.
  settle_startServer; first [exists []; reflexivity | eexists; reflexivity].
Qed.

(** X13. Listening before publishing: [startServer] first connects; when
    the connection is not established it does nothing else; and whatever it
    publishes, at start-up, it publishes after the connection and after the
    message handler is registered. *)
Theorem publishes_after_listening (Number_toString : number -> string)
    (broker : string -> string -> promise unit) (c : collaborators) (s : Fast.session)
    (p : process) (url identifier : string) (options : ServerOptions) :
  (fulfilled (connected c) = false ->
   fst (startServer Number_toString broker c s p url identifier options)
   = [Connect url (mqttUsername options) (mqttPassword options)])
  /\ (forall t1 e t2,
        fst (startServer Number_toString broker c s p url identifier options)
        = t1 ++ e :: t2 ->
        is_publication e = true ->
        In (Connect url (mqttUsername options) (mqttPassword options)) t1
        /\ In OnMessage t1).
Proof.
  destruct (startServer_head Number_toString broker c s p url identifier options)
    as [rest Hhead].
  split.
  - intros Hc. rewrite Hhead, Hc. reflexivity.
  - intros t1 e t2 Hsplit Hpub. rewrite Hhead in Hsplit.
    destruct (fulfilled (connected c)).
    + destruct t1 as [|a [|b t1]]; simpl in Hsplit; inversion Hsplit; subst.
      * discriminate.
      * discriminate.
      * split; [left; reflexivity | right; left; reflexivity].
    + destruct t1 as [|a t1]; simpl in Hsplit; inversion Hsplit; subst.
      * discriminate.
      * destruct t1; discriminate.
Qed.

Lemma publishes_after_listening_witness :
  fst (startServer print_N acknowledge
         {| connected := Rejected (MkError "connack timeout"); subscribed := Pending;
            scheduled := None |}
         Fast.navigation_failure [] "mqtt://broker" "abc"
         {| mqttUsername := None; mqttPassword := None; cronSchedule := None |})
  = [Connect "mqtt://broker" None None].
Proof.
  apply (proj1 (publishes_after_listening print_N acknowledge
                  {| connected := Rejected (MkError "connack timeout"); subscribed := Pending;
                     scheduled := None |}
                  Fast.navigation_failure [] "mqtt://broker" "abc"
                  {| mqttUsername := None; mqttPassword := None; cronSchedule := None |})).
  reflexivity.
Defined.

(** X14. The first measurement gates the server: [startServer] subscribes
    to [homeassistant/status], once, exactly when the connection, the
    discovery burst and the first measurement with its report were all
    fulfilled, and otherwise never; it sets up the cron job, once and with the
    schedule of the options or [0 * * * *], exactly when the subscription was
    fulfilled too; when all four were fulfilled [startServer] returns with the
    exit handlers registered, unless the scheduler throws; and when one of the
    four is not fulfilled, [startServer] is not fulfilled either. *)
Theorem first_measurement_gates_server (Number_toString : number -> string)
    (broker : string -> string -> promise unit) (c : collaborators) (s : Fast.session)
    (p : process) (url identifier : string) (options : ServerOptions) :
  let ready :=
    fulfilled (connected c)
    && fulfilled (snd (publishDiscoveryMessages Number_toString broker identifier))
    && fulfilled (snd (runAndReport Number_toString broker identifier s)) in
  let run := startServer Number_toString broker c s p url identifier options in
  filter is_subscribe (fst run)
  = (if ready then [Subscribe "homeassistant/status"] else [])
  /\ filter is_schedule (fst run)
     = (if ready && fulfilled (subscribed c) then [Schedule (schedule_of options)] else [])
  /\ schedule_of options
     = match cronSchedule options with
       | Some pattern => pattern
       | None => "0 * * * *"%string
       end
  /\ (ready && fulfilled (subscribed c) = true ->
      snd run = match scheduled c with
                | None => Fulfilled (snd (registerExitHandlers p))
                | Some e => Rejected e
                end)
  /\ (ready && fulfilled (subscribed c) = false -> fulfilled (snd run) = false).
Proof.
  intros ready run. split; [apply startServer_subscribes|].
  split; [apply startServer_schedules|]. split; [reflexivity|].
  apply startServer_fulfilled.
Qed.

Lemma first_measurement_gates_server_witness :
  fulfilled
    (snd (startServer print_N acknowledge reliable Fast.navigation_failure [] "mqtt://broker"
            "abc" {| mqttUsername := None; mqttPassword := None; cronSchedule := None |}))
  = false.
Proof.
  apply (proj2 (proj2 (proj2 (proj2
           (first_measurement_gates_server print_N acknowledge reliable
              Fast.navigation_failure [] "mqtt://broker" "abc"
              {| mqttUsername := None; mqttPassword := None; cronSchedule := None |}))))).
  reflexivity.
Defined.

(** X15. The command line: the server is started only when both
    [--mqtt_url] and [--unique_id] were given a non-empty value; otherwise
    nothing is done and the error names the first of the two that is missing;
    and the entry point never passes a schedule, so a server started from the
    command line only ever schedules [0 * * * *]. *)
Theorem command_line_guard (Number_toString : number -> string)
    (broker : string -> string -> promise unit) (c : collaborators) (s : Fast.session)
    (p : process) (values : cli_values) :
  let run := main Number_toString broker c s p values in
  (truthy (mqtt_url values) = false ->
   run = ([], Rejected (MkError "Missing required option: --mqtt_url")))
  /\ (truthy (mqtt_url values) = true -> truthy (unique_id values) = false ->
      run = ([], Rejected (MkError "Missing required option: --unique_id")))
  /\ (truthy (mqtt_url values) = true -> truthy (unique_id values) = true ->
      exists url identifier,
        mqtt_url values = Some url /\ unique_id values = Some identifier
        /\ run = startServer Number_toString broker c s p url identifier
                   {| mqttUsername := mqtt_username values;
                      mqttPassword := mqtt_password values;
                      cronSchedule := None |})
  /\ (forall pattern, In (Schedule pattern) (fst run) -> pattern = "0 * * * *"%string).
Proof.
  intros run. unfold run, main, invariant.
  destruct (mqtt_url values) as [[|a url]|] eqn:Hurl; cbn [truthy];
    try (split; [reflexivity|]; split; [discriminate|]; split; [discriminate|];
         intros pattern []).
  destruct (unique_id values) as [[|b identifier]|] eqn:Hid; cbn [truthy];
    try (split; [discriminate|]; split; [reflexivity|]; split; [discriminate|];
         intros pattern []).
  split; [discriminate|]. split; [discriminate|]. split.
  - intros _ _. exists (String a url), (String b identifier). repeat split; reflexivity.
  - intros pattern Hin.
    assert (Hf : In (Schedule pattern)
                    (filter is_schedule
                       (fst (startServer Number_toString broker c s p (String a url)
                               (String b identifier)
                               {| mqttUsername := mqtt_username values;
                                  mqttPassword := mqtt_password values;
                                  cronSchedule := None |})))).
    { apply filter_In. split; [exact Hin | reflexivity]. }
    rewrite startServer_schedules in Hf.
    destruct (_ && _ && _ && _); simpl in Hf; [|contradiction].
    destruct Hf as [Hf|[]]. inversion Hf. reflexivity.
Qed.

Lemma command_line_guard_witness :
  main print_N acknowledge reliable Fast.navigation_failure []
    {| mqtt_url := Some "mqtt://broker"; unique_id := Some EmptyString;
       mqtt_username := None; mqtt_password := None |}
  = ([], Rejected (MkError "Missing required option: --unique_id")).
Proof.
  apply (proj1 (proj2 (command_line_guard print_N acknowledge reliable
                         Fast.navigation_failure []
                         {| mqtt_url := Some "mqtt://broker"; unique_id := Some EmptyString;
                            mqtt_username := None; mqtt_password := None |})));
    reflexivity.
Defined.

End OrchestratorFacts.

(** ** Installing the browser *)

Module InstallerFacts.
Import Installer.
Local Open Scope list_scope.

Lemma progress_downloaded (chromeVersion : string) (calls : nat) :
  progress chromeVersion true calls = ([], true).
Proof.
  induction calls as [|calls IH]; simpl; [reflexivity|]. rewrite IH. reflexivity.
Qed.

(** X16. The download line of [installBrowser]: however many times the
    installation reports progress, the line announcing the download is written
    once - and not at all when no progress is reported, as when the browser is
    already in the cache. *)
Theorem download_announced_once (chromeVersion : string) (calls : nat)
    (installation : promise string) :
  installBrowser chromeVersion calls installation
  = (match calls with
     | O => []
     | S _ => [("Downloading the browser Chrome/" ++ chromeVersion ++ "...")%string]
     end,
     installation).
Proof.
  unfold installBrowser. destruct calls as [|calls]; [reflexivity|].
  simpl. rewrite progress_downloaded. reflexivity.
Qed.

End InstallerFacts.

(** ** Subtraction of finite numbers *)

Module SubtractionFacts.
Import Delivery.

Section Rounding.
Variables prec emax : Z.

Lemma shr_1_nonneg (mrs : shr_record) : (0 <= shr_m mrs)%Z -> (0 <= shr_m (shr_1 mrs))%Z.
Proof.
  destruct mrs as [m r s]. simpl. intros H.
  destruct m as [|p|p]; simpl; try lia; destruct p; simpl; lia.
Qed.

Lemma iter_shr_1_nonneg (p : positive) :
  forall mrs, (0 <= shr_m mrs)%Z -> (0 <= shr_m (iter_pos shr_1 p mrs))%Z.
Proof.
  induction p as [p IH|p IH|]; intros mrs H; simpl.
  - apply IH, IH, shr_1_nonneg, H.
  - apply IH, IH, H.
  - apply shr_1_nonneg, H.
Qed.

Lemma shr_fexp_nonneg (m e : Z) (l : location) :
  (0 <= m)%Z -> (0 <= shr_m (fst (shr_fexp prec emax m e l)))%Z.
Proof.
  intros H. unfold shr_fexp, shr.
  assert (H0 : (0 <= shr_m (shr_record_of_loc m l))%Z).
  { destruct l as [|[| |]]; exact H. }
  destruct (fexp prec emax (Zdigits2 m + e) - e)%Z; simpl; try exact H0.
  apply iter_shr_1_nonneg, H0.
Qed.

Lemma round_nearest_even_nonneg (m : Z) (l : location) :
  (0 <= m)%Z -> (0 <= round_nearest_even m l)%Z.
Proof.
  intros H. destruct l as [|[| |]]; simpl; try lia. destruct (Z.even m); lia.
Qed.

(** Rounding a mantissa that is not negative never gives NaN. *)
Lemma binary_round_aux_not_nan (sx : bool) (m e : Z) (l : location) :
  (0 <= m)%Z -> binary_round_aux prec emax sx m e l <> S754_nan.
Proof.
  intros H. unfold binary_round_aux.
  pose proof (shr_fexp_nonneg m e l H) as H1.
  destruct (shr_fexp prec emax m e l) as [mrs' e']. simpl in H1.
  pose proof (shr_fexp_nonneg _ e' loc_Exact
                (round_nearest_even_nonneg _ (loc_of_shr_record mrs') H1)) as H2.
  destruct (shr_fexp prec emax _ e' loc_Exact) as [mrs'' e'']. simpl in H2.
  destruct (shr_m mrs'') as [|p|p]; try discriminate; try lia.
  destruct (e'' <=? emax - prec)%Z; discriminate.
Qed.

Lemma binary_normalize_not_nan (m e : Z) (szero : bool) :
  binary_normalize prec emax m e szero <> S754_nan.
Proof.
  unfold binary_normalize, binary_round.
  destruct m as [|p|p]; try discriminate;
    destruct (shl_align p e _) as [mz ez]; apply binary_round_aux_not_nan; lia.
Qed.

Lemma SFsub_not_nan (x y : spec_float) :
  SF_is_finite x = true -> SF_is_finite y = true -> SFsub prec emax x y <> S754_nan.
Proof.
  destruct x as [sx|sx| |sx mx ex], y as [sy|sy| |sy my ey]; simpl; try discriminate.
  - destruct sx, sy; discriminate.
  - intros _ _. apply binary_normalize_not_nan.
Qed.

End Rounding.

Lemma is_finite_spec (x : number) : is_finite x = true -> SF_is_finite (Prim2SF x) = true.
Proof.
  unfold is_finite. rewrite negb_true_iff, orb_false_iff. intros [Hnan Hinf].
  apply NumberFacts.is_nan_false in Hnan.
  unfold is_infinity in Hinf. rewrite FloatAxioms.eqb_spec, FloatAxioms.abs_spec in Hinf.
  change (Prim2SF infinity) with (S754_infinity false) in Hinf.
  destruct (Prim2SF x) as [s|s| |s m e]; try reflexivity.
  - discriminate.
  - congruence.
Qed.

(** The difference of two finite numbers is a number: it may overflow to an
    infinity, it is never NaN. *)
Lemma sub_finite_not_nan (x y : number) :
  is_finite x = true -> is_finite y = true -> is_nan (x - y)%float = false.
Proof.
  intros Hx Hy. apply NumberFacts.is_nan_false. rewrite FloatAxioms.sub_spec.
  apply SFsub_not_nan; apply is_finite_spec; assumption.
Qed.

End SubtractionFacts.

(** ** The measurement: [runSpeedTest], [runAndReport], [publishSpeedTestResult] *)

Module MeasurementFacts.
Import Server Sessions Delivery.
Local Open Scope list_scope.

(** *** The stream that [runSpeedTest] subscribes to *)

Lemma runSpeedTest_stream (s : Fast.session) (path : string) :
  Fast.getChromeExecutablePath s = Fulfilled path ->
  runSpeedTest s = (map Browser (stream s), subscribe None (stream s)).
Proof. intros H. unfold runSpeedTest, Fast.runFastTest, stream. rewrite H. reflexivity. Qed.

Lemma runSpeedTest_settled (s : Fast.session) :
  snd (runSpeedTest s) <> Pending ->
  exists path, Fast.getChromeExecutablePath s = Fulfilled path.
Proof.
  unfold runSpeedTest, Fast.runFastTest.
  destruct (Fast.getChromeExecutablePath s) as [|path|e]; simpl; intros H.
  - congruence.
  - exists path. reflexivity.
  - congruence.
Qed.

Lemma quiet_not_in (body : list Fast.effect) (e : Fast.effect) :
  forallb quiet body = true -> quiet e = false -> ~ In e body.
Proof.
  induction body as [|b body IH]; simpl; intros H He Hin; [exact Hin|].
  apply andb_true_iff in H. destruct H as [Hb H].
  destruct Hin as [->|Hin]; [congruence | exact (IH H He Hin)].
Qed.

(** A stream that completes: quiet effects, the closing of the browser and
    the completion. *)
Lemma stream_completed (s : Fast.session) :
  In Fast.ObserverComplete (stream s) ->
  exists body,
    stream s = body ++ [Fast.BrowserClose; Fast.ObserverComplete]
    /\ forallb quiet body = true.
Proof.
  unfold stream. intros Hin.
  destruct (StreamFacts.subscriber_shape {| Fast.measureUpload := Some true |} s)
    as [body [tail [Htrace [Hquiet Hend]]]].
  rewrite Htrace in *. exists body.
  apply in_app_or in Hin. destruct Hin as [Hin|Hin].
  - exfalso. exact (quiet_not_in body Fast.ObserverComplete Hquiet eq_refl Hin).
  - destruct Hend as [-> | [-> | [x ->]]].
    + contradiction.
    + split; [reflexivity | exact Hquiet].
    + simpl in Hin. destruct Hin as [H|[]]. discriminate.
Qed.

(** A stream that fails: quiet effects and the error. *)
Lemma stream_failed (s : Fast.session) (error : Error) :
  In (Fast.ObserverError error) (stream s) ->
  exists body,
    stream s = body ++ [Fast.ObserverError error] /\ forallb quiet body = true.
Proof.
  unfold stream. intros Hin.
  destruct (StreamFacts.subscriber_shape {| Fast.measureUpload := Some true |} s)
    as [body [tail [Htrace [Hquiet Hend]]]].
  rewrite Htrace in *. exists body.
  apply in_app_or in Hin. destruct Hin as [Hin|Hin].
  - exfalso. exact (quiet_not_in body (Fast.ObserverError error) Hquiet eq_refl Hin).
  - destruct Hend as [-> | [-> | [x ->]]].
    + contradiction.
    + simpl in Hin. destruct Hin as [H|[H|[]]]; discriminate.
    + simpl in Hin. destruct Hin as [H|[]]. inversion H; subst.
      split; [reflexivity | exact Hquiet].
Qed.

(** A stream that neither completes nor fails settles nothing. *)
Lemma stream_open_pending (s : Fast.session) :
  ~ In Fast.ObserverComplete (stream s) ->
  (forall error, ~ In (Fast.ObserverError error) (stream s)) ->
  subscribe None (stream s) = Pending.
Proof.
  unfold stream. intros Hc He.
  destruct (StreamFacts.subscriber_shape {| Fast.measureUpload := Some true |} s)
    as [body [tail [Htrace [Hquiet Hend]]]].
  rewrite Htrace in *.
  rewrite ReducerFacts.subscribe_app by (apply EndToEndFacts.quiet_open; exact Hquiet).
  destruct Hend as [-> | [-> | [x ->]]].
  - reflexivity.
  - exfalso. apply Hc. apply in_or_app. right. right. left. reflexivity.
  - exfalso. apply (He x). apply in_or_app. right. left. reflexivity.
Qed.

Lemma subscribe_completed (s : Fast.session) :
  In Fast.ObserverComplete (stream s) ->
  subscribe None (stream s) = complete (last_seen s).
Proof.
  intros Hin. unfold last_seen.
  destruct (stream_completed s Hin) as [body [Htrace Hquiet]]. rewrite Htrace.
  rewrite ReducerFacts.subscribe_app by (apply EndToEndFacts.quiet_open; exact Hquiet).
  rewrite SamplerFacts.emitted_app. simpl. rewrite app_nil_r. reflexivity.
Qed.

Lemma subscribe_failed (s : Fast.session) (error : Error) :
  In (Fast.ObserverError error) (stream s) ->
  subscribe None (stream s) = Rejected error.
Proof.
  intros Hin. destruct (stream_failed s error Hin) as [body [Htrace Hquiet]].
  rewrite Htrace.
  rewrite ReducerFacts.subscribe_app by (apply EndToEndFacts.quiet_open; exact Hquiet).
  reflexivity.
Qed.

(** When [runSpeedTest] rejects, [runAndReport] rejects with the same error
    and hands nothing to the client. *)
Lemma runAndReport_rejected Number_toString broker identifier s error :
  snd (runSpeedTest s) = Rejected error ->
  snd (runAndReport Number_toString broker identifier s) = Rejected error
  /\ published (fst (runAndReport Number_toString broker identifier s)) = [].
Proof.
  intros H.
  rewrite EndToEndFacts.runAndReport_unsettled by (intros value Hv; congruence).
  rewrite H. cbn [fst snd published].
  split; [reflexivity | apply ReducerFacts.published_runSpeedTest].
Qed.

(** C3. Measurement Reducer completeness: [runSpeedTest] keeps, of the
    stream it subscribes to, only the reading emitted last: a later reading
    replaces an earlier one, whatever the earlier one held.  When the stream
    completes, [runSpeedTest] resolves exactly when there is such a reading
    and its download speed, upload speed, latency and buffer bloat are all
    present; otherwise it is rejected with the error [No result], and
    [runAndReport] is rejected with it and publishes nothing.  When the stream
    fails, [runSpeedTest] is rejected with the error of the stream, and
    [runAndReport] again publishes nothing.  A last reading without latency
    gives [No result]. *)
Theorem reducer_completeness (s : Fast.session) (path : string)
    (Hpath : Fast.getChromeExecutablePath s = Fulfilled path) :
  (In Fast.ObserverComplete (stream s) ->
     snd (runSpeedTest s) = complete (last_seen s)
     /\ ((exists value, snd (runSpeedTest s) = Fulfilled value)
         <-> exists r, last_seen s = Some r /\ usable r)
     /\ ((forall value, snd (runSpeedTest s) <> Fulfilled value) ->
         snd (runSpeedTest s) = Rejected (MkError "No result")
         /\ forall Number_toString broker identifier,
              snd (runAndReport Number_toString broker identifier s)
              = Rejected (MkError "No result")
              /\ published (fst (runAndReport Number_toString broker identifier s)) = []))
  /\ (forall error,
        In (Fast.ObserverError error) (stream s) ->
        snd (runSpeedTest s) = Rejected error
        /\ forall Number_toString broker identifier,
             snd (runAndReport Number_toString broker identifier s) = Rejected error
             /\ published (fst (runAndReport Number_toString broker identifier s)) = [])
  /\ (forall before earlier later,
        forallb quiet before = true ->
        subscribe None (before ++ [Fast.ObserverNext earlier; Fast.ObserverNext later;
                                   Fast.BrowserClose; Fast.ObserverComplete])
        = complete (Some later))
  /\ snd (runSpeedTest
            (healthy [final_reading (Some 90%float) (Some 20%float) None (Some 35%float)]))
     = Rejected (MkError "No result").
Proof.
  rewrite (runSpeedTest_stream s path Hpath). cbn [snd].
  split; [|split; [|split; [|reflexivity]]].
  - intros Hcomplete.
    pose proof (subscribe_completed s Hcomplete) as Hsub.
    split; [exact Hsub|]. rewrite Hsub.
    split; [apply ReducerFacts.complete_fulfilled|].
    intros Hnone. pose proof (ReducerFacts.complete_rejected _ Hnone) as Hrejected.
    split; [exact Hrejected|].
    intros Number_toString broker identifier.
    apply runAndReport_rejected.
    rewrite (runSpeedTest_stream s path Hpath). cbn [snd]. congruence.
  - intros error Herror.
    pose proof (subscribe_failed s error Herror) as Hsub.
    split; [exact Hsub|].
    intros Number_toString broker identifier.
    apply runAndReport_rejected.
    rewrite (runSpeedTest_stream s path Hpath). cbn [snd]. exact Hsub.
  - intros before earlier later Hquiet.
    rewrite ReducerFacts.subscribe_app by (apply EndToEndFacts.quiet_open; exact Hquiet).
    reflexivity.
Qed.

Lemma reducer_completeness_witness :
  snd (runSpeedTest
         (healthy [unfinished (final_reading (Some 90%float) (Some 20%float)
                                 (Some 20%float) (Some 35%float));
                   final_reading (Some 91%float) (Some 21%float) (Some 20%float)
                     (Some 35%float)]))
  = complete
      (last_seen
         (healthy [unfinished (final_reading (Some 90%float) (Some 20%float)
                                 (Some 20%float) (Some 35%float));
                   final_reading (Some 91%float) (Some 21%float) (Some 20%float)
                     (Some 35%float)])).
Proof.
  apply (proj1 (reducer_completeness
                  (healthy [unfinished (final_reading (Some 90%float) (Some 20%float)
                                          (Some 20%float) (Some 35%float));
                            final_reading (Some 91%float) (Some 21%float) (Some 20%float)
                              (Some 35%float)])
                  "/usr/bin/chromium-browser" eq_refl)).
  simpl. do 9 right. left. reflexivity.
Defined.

(** *** The result of a measurement *)

Lemma latest_In (readings : list Fast.FastResult) :
  forall before r, latest before readings = Some r -> In r readings \/ before = Some r.
Proof.
  unfold latest. induction readings as [|x readings IH]; intros before r H; simpl in *.
  - right. exact H.
  - destruct (IH (Some x) r H) as [Hin|Heq].
    + left. right. exact Hin.
    + left. left. congruence.
Qed.

(** A result of [runSpeedTest] is what [complete] makes of the reading seen
    last, in a stream that has completed. *)
Lemma runSpeedTest_fulfilled_inv (s : Fast.session) (value : SpeedTestResult) :
  snd (runSpeedTest s) = Fulfilled value ->
  In Fast.ObserverComplete (stream s) /\ complete (last_seen s) = Fulfilled value.
Proof.
  intros Hresult.
  destruct (runSpeedTest_settled s) as [path Hpath]; [congruence|].
  rewrite (runSpeedTest_stream s path Hpath) in Hresult. cbn [snd] in Hresult.
  assert (Hcomplete : In Fast.ObserverComplete (stream s)).
  { unfold stream in *.
    destruct (StreamFacts.subscriber_shape {| Fast.measureUpload := Some true |} s)
      as [body [tail [Htrace [Hquiet Hend]]]].
    rewrite Htrace in *.
    rewrite ReducerFacts.subscribe_app in Hresult
      by (apply EndToEndFacts.quiet_open; exact Hquiet).
    destruct Hend as [-> | [-> | [x ->]]].
    - discriminate.
    - apply in_or_app. right. right. left. reflexivity.
    - discriminate. }
  split; [exact Hcomplete|].
  rewrite <- (subscribe_completed s Hcomplete). exact Hresult.
Qed.

Lemma stream_emits_shown (s : Fast.session) (r : Fast.FastResult) :
  In r (Fast.emitted (stream s)) -> In (Fulfilled r) (Fast.evaluated s).
Proof.
  unfold stream, Fast.subscriber. intros Hemitted.
  destruct (Fast.launched s) as [|u|e]; try (simpl in Hemitted; contradiction).
  destruct (Fast.paged s) as [|u'|e]; try (simpl in Hemitted; contradiction).
  destruct (Fast.navigated s) as [|u''|e]; try (simpl in Hemitted; contradiction).
  pose proof (StreamFacts.init_from_emits_shown {| Fast.measureUpload := Some true |}
                (Fast.evaluated s) None r) as Hshown.
  unfold Fast.init in Hemitted.
  destruct (Fast.init_from {| Fast.measureUpload := Some true |} None (Fast.evaluated s))
    as [passes c].
  simpl in *. rewrite SamplerFacts.emitted_app in Hemitted.
  apply in_app_or in Hemitted. destruct Hemitted as [Hin|Hin].
  - apply Hshown. exact Hin.
  - destruct c; simpl in Hin; contradiction.
Qed.

(** The reading seen last is a reading that the page delivered. *)
Lemma last_seen_delivered (s : Fast.session) (r : Fast.FastResult) :
  forallb delivered_answer (Fast.evaluated s) = true ->
  last_seen s = Some r ->
  delivered r = true.
Proof.
  intros Hall Hlast. unfold last_seen in Hlast.
  apply latest_In in Hlast. destruct Hlast as [Hin|Hnone]; [|discriminate].
  apply stream_emits_shown in Hin.
  rewrite forallb_forall in Hall. exact (Hall (Fulfilled r) Hin).
Qed.

(** The normalized buffer bloat of finite readings is at least 0. *)
Lemma normalized_nonneg (lat bloat : number) :
  is_finite lat = true -> is_finite bloat = true ->
  (0 <=? Math_max (bloat - lat)%float 0%float)%float = true.
Proof.
  intros Hlat Hbloat. apply NumberFacts.Math_max_zero_nonneg.
  apply SubtractionFacts.sub_finite_not_nan; assumption.
Qed.

(** C4. Buffer-bloat normalization: every result that [runSpeedTest]
    resolves to is made from the reading seen last, whose four fields are
    present: download speed, upload speed and latency are passed through
    unchanged and the buffer bloat is [Math.max(b - l, 0)] of its raw buffer
    bloat [b] and its latency [l]; as the numbers that [page.evaluate]
    delivers are finite, that value is at least 0.  The same holds of every
    reading with the four fields present that [complete] is given.  A latency
    of 20 with a raw buffer bloat of 15 gives 0, with 35 it gives 15. *)
Theorem buffer_bloat_normalization (s : Fast.session) (value : SpeedTestResult)
    (Hdelivered : forallb delivered_answer (Fast.evaluated s) = true)
    (Hresult : snd (runSpeedTest s) = Fulfilled value) :
  (exists r speed upload lat bloat,
      last_seen s = Some r
      /\ Fast.downloadSpeed r = Some speed
      /\ Fast.uploadSpeed r = Some upload
      /\ Fast.latency r = Some lat
      /\ Fast.bufferBloat r = Some bloat
      /\ value = {| downloadSpeed := speed; uploadSpeed := upload; latency := lat;
                    bufferBloat := Math_max (bloat - lat)%float 0%float |}
      /\ (0 <=? bufferBloat value)%float = true)
  /\ (forall r speed upload lat bloat,
        delivered r = true ->
        Fast.downloadSpeed r = Some speed ->
        Fast.uploadSpeed r = Some upload ->
        Fast.latency r = Some lat ->
        Fast.bufferBloat r = Some bloat ->
        complete (Some r)
        = Fulfilled {| downloadSpeed := speed; uploadSpeed := upload; latency := lat;
                       bufferBloat := Math_max (bloat - lat)%float 0%float |}
        /\ (0 <=? Math_max (bloat - lat)%float 0%float)%float = true)
  /\ Math_max (15 - 20)%float 0%float = 0%float
  /\ Math_max (35 - 20)%float 0%float = 15%float.
Proof.
  assert (Hfields : forall r lat bloat,
             delivered r = true -> Fast.latency r = Some lat ->
             Fast.bufferBloat r = Some bloat ->
             is_finite lat = true /\ is_finite bloat = true).
  { intros r lat bloat Hd Hlat Hbloat. unfold delivered in Hd.
    rewrite Hlat, Hbloat in Hd. repeat rewrite andb_true_iff in Hd.
    simpl in Hd. tauto. }
  split; [|split; [|split; reflexivity]].
  - destruct (runSpeedTest_fulfilled_inv s value Hresult) as [_ Hcomplete].
    unfold complete in Hcomplete.
    destruct (last_seen s) as [r|] eqn:Hlast; [|discriminate].
    destruct (Fast.downloadSpeed r) as [speed|] eqn:Hspeed; [|discriminate].
    destruct (Fast.uploadSpeed r) as [upload|] eqn:Hupload; [|discriminate].
    destruct (Fast.latency r) as [lat|] eqn:Hlat; [|discriminate].
    destruct (Fast.bufferBloat r) as [bloat|] eqn:Hbloat; [|discriminate].
    inversion Hcomplete as [Hvalue]. clear Hcomplete. subst value.
    exists r, speed, upload, lat, bloat.
    repeat (split; [first [assumption | reflexivity]|]). cbn [bufferBloat].
    destruct (Hfields r lat bloat (last_seen_delivered s r Hdelivered Hlast) Hlat Hbloat)
      as [Hl Hb].
    exact (normalized_nonneg lat bloat Hl Hb).
  - intros r speed upload lat bloat Hd Hspeed Hupload Hlat Hbloat. split.
    + unfold complete. rewrite Hspeed, Hupload, Hlat, Hbloat. reflexivity.
    + destruct (Hfields r lat bloat Hd Hlat Hbloat) as [Hl Hb].
      exact (normalized_nonneg lat bloat Hl Hb).
Qed.

Lemma buffer_bloat_normalization_witness :
  (0 <=? Math_max (15 - 20)%float 0%float)%float = true.
Proof.
  destruct (proj1 (buffer_bloat_normalization
                     (healthy [final_reading (Some 90%float) (Some 20%float) (Some 20%float)
                                 (Some 15%float)])
                     {| downloadSpeed := 90%float; uploadSpeed := 20%float;
                        latency := 20%float;
                        bufferBloat := Math_max (15 - 20)%float 0%float |}
                     eq_refl eq_refl))
    as [r [speed [upload [lat [bloat [_ [_ [_ [_ [_ [_ H]]]]]]]]]]].
  exact H.
Defined.

(** *** Publishing the result *)

(** C5. Threshold law: for every result that [runSpeedTest] resolves to,
    [publishSpeedTestResult] hands exactly one message to the client - the
    JSON object of the four values, on the state topic - if and only if the
    download speed is at least 5, and none otherwise; a download speed is
    below 5 exactly when it is not at least 5, and then the function writes
    the skip warning and returns normally.  [runAndReport] publishes
    accordingly. *)
Theorem publish_threshold_law (Number_toString : number -> string)
    (broker : string -> string -> promise unit) (identifier : string)
    (s : Fast.session) (result : SpeedTestResult)
    (Hresult : snd (runSpeedTest s) = Fulfilled result) :
  let run := publishSpeedTestResult Number_toString broker identifier result in
  let message := state_message Number_toString identifier result in
  (published (fst run) = [message] <-> (5 <=? downloadSpeed result)%float = true)
  /\ (published (fst run) = [message] \/ published (fst run) = [])
  /\ ((downloadSpeed result <? 5)%float = negb (5 <=? downloadSpeed result)%float)
  /\ ((downloadSpeed result <? 5)%float = true ->
      run = ([ConsoleWarn "[st2mqtt] Download speed is less than 5 Mbps, skipping publishing"],
             Fulfilled tt))
  /\ ((5 <=? downloadSpeed result)%float = true ->
      run = ([ConsoleLog ("[st2mqtt] Publishing speed test result to topic: "
                          ++ getStateTopic identifier)%string;
              Publish (fst message) (snd message)],
             broker (fst message) (snd message)))
  /\ published (fst (runAndReport Number_toString broker identifier s))
     = (if (5 <=? downloadSpeed result)%float then [message] else []).
Proof.
  intros run message.
  assert (Hnumber : is_nan (downloadSpeed result) = false).
  { pose proof (PipelineFacts.runSpeedTest_speed_positive s result Hresult) as Hpositive.
    apply NumberFacts.ltb_true_not_nan in Hpositive. exact (proj2 Hpositive). }
  pose proof (NumberFacts.ltb_negb_leb (downloadSpeed result) 5%float Hnumber eq_refl)
    as Hlt.
  assert (Hlow : (downloadSpeed result <? 5)%float = true ->
                 run = ([ConsoleWarn
                           "[st2mqtt] Download speed is less than 5 Mbps, skipping publishing"],
                        Fulfilled tt)).
  { intros H. unfold run, publishSpeedTestResult. rewrite H. reflexivity. }
  assert (Hhigh : (5 <=? downloadSpeed result)%float = true ->
                  run = ([ConsoleLog ("[st2mqtt] Publishing speed test result to topic: "
                                      ++ getStateTopic identifier)%string;
                          Publish (fst message) (snd message)],
                         broker (fst message) (snd message))).
  { intros H. unfold run, publishSpeedTestResult. rewrite Hlt, H.
    unfold await, console_log, publishAsync. reflexivity. }
  assert (Hcases : published (fst run)
                   = (if (5 <=? downloadSpeed result)%float then [message] else [])).
  { destruct (5 <=? downloadSpeed result)%float eqn:Hle.
    - rewrite (Hhigh eq_refl). cbn [fst published].
      rewrite <- surjective_pairing. reflexivity.
    - rewrite Hlow by (rewrite Hlt; reflexivity). reflexivity. }
  split; [|split; [|split; [exact Hlt|split; [exact Hlow|split; [exact Hhigh|]]]]].
  - rewrite Hcases. destruct (5 <=? downloadSpeed result)%float; split; congruence.
  - rewrite Hcases. destruct (5 <=? downloadSpeed result)%float; auto.
  - rewrite (EndToEndFacts.runAndReport_fulfilled _ _ _ _ _ Hresult). exact Hcases.
Qed.

Lemma publish_threshold_law_witness :
  published
    (fst (runAndReport print_N acknowledge "abc"
            (healthy [final_reading (Some 3%float) (Some 20%float) (Some 20%float)
                        (Some 15%float)])))
  = [].
Proof.
  rewrite (proj2 (proj2 (proj2 (proj2 (proj2
             (publish_threshold_law print_N acknowledge "abc"
                (healthy [final_reading (Some 3%float) (Some 20%float) (Some 20%float)
                            (Some 15%float)])
                {| downloadSpeed := 3%float; uploadSpeed := 20%float; latency := 20%float;
                   bufferBloat := Math_max (15 - 20)%float 0%float |}
                eq_refl)))))).
  reflexivity.
Defined.

End MeasurementFacts.
